(** * route53-sidecar: a shallow embedding of [main.go]

    The program publishes an A record for the host in Route 53, waits for
    the change to propagate, and on SIGTERM/SIGINT deletes the record,
    waits again and drains the TTL.

    Everything the program does is an effect on the outside world (flags,
    AWS calls, timers, signals, the log).  The embedding threads an explicit
    [State] (the package-level variables, an ideal clock, call counters and
    a timestamped trace of effects) through a small state-and-halt monad;
    the answers of the outside world come from a [World] record, so that
    each Go function becomes an executable Rocq function of the world.

    Conventions.
    - Go's [int] is taken to be 64 bits (amd64, arm64); [time.Duration] is
      an [int64] count of nanoseconds and its arithmetic wraps around.
    - The clock is ideal: a sleep takes exactly its duration and a call to
      an AWS API takes no time.  Every AWS call is recorded with the
      context it is made under; a signal that comes during a call is a
      signal at the instant of the call, and what the SDK answers under a
      context that is done is a property of worlds ([honoursContext]).
    - [log.Fatal*] is [os.Exit(1)] after the log line; an index out of
      range is a run-time panic (exit status 2). *)

From Stdlib Require Import ZArith List String Bool Lia.
Import ListNotations.

Open Scope string_scope.
Open Scope list_scope.
Open Scope Z_scope.

(** ** Go's numbers and durations *)

Module Go.

Definition wrap64 (z : Z) : Z := (z + 2 ^ 63) mod 2 ^ 64 - 2 ^ 63.

(** [time.Duration]: nanoseconds in an [int64]. *)
Definition Duration := Z.
Definition Second : Duration := 1000000000.

(** [time.Duration(n) * time.Second], in [int64] arithmetic. *)
Definition seconds (n : Z) : Duration := wrap64 (n * Second).

End Go.

(** ** Data the program exchanges with the AWS SDK *)

(** [types.ChangeAction]; the program uses two of its values. *)
Inductive ChangeAction := ChangeActionCreate | ChangeActionDelete | ChangeActionUpsert.

(** [types.RRType] is a string type; [types.RRTypeA] is the string "A". *)
Definition RRType := string.
Definition RRTypeA : RRType := "A".

Record ResourceRecord := { Value : string }.

Record ResourceRecordSet := {
  Name : string;
  ResourceRecords : list ResourceRecord;
  TTL : Z;
  Type_ : RRType;
  Weight : Z;
  SetIdentifier : string
}.

Record Change := {
  Action : ChangeAction;
  RecordSet : ResourceRecordSet
}.

Record ChangeBatch := {
  Changes : list Change;
  Comment : option string
}.

Record ChangeResourceRecordSetsInput := {
  Batch : ChangeBatch;
  HostedZoneId : string
}.

(** Result of [r53.ChangeResourceRecordSets]: an error, or the id of the
    submitted change ([changeSet.ChangeInfo.Id]). *)
Inductive SubmitResult := SubmitErr (err : string) | SubmitOk (changeId : string).

(** Result of [r53.GetChange]: an error, or [ChangeInfo.Status]
    ([types.ChangeStatus], a string type: "PENDING", "INSYNC"). *)
Inductive QueryResult := QueryErr (err : string) | QueryOk (status : string).

(** The struct decoded from the ECS task metadata document. *)
Record ecsNetwork := { IPv4Addresses : list string }.

Record ecsMetadata := {
  DesiredStatus : string;
  Networks : list ecsNetwork
}.

(** ** Package-level variables *)

Record Globals := {
  dns : string;
  hostedZone : string;
  dnsTTL : Z;
  ipAddress : string;
  setupDelay : Z;
  register : bool;
  unRegister : bool
}.

(** The defaults given to the [flag] package. *)
Definition flagDefaults : Globals := {|
  dns := "my.example.com";
  hostedZone := "Z2AAAABCDEFGT4";
  dnsTTL := 10;
  ipAddress := "public-ipv4";
  setupDelay := 10;
  register := false;
  unRegister := false
|}.

Definition set_ipAddress (ip : string) (g : Globals) : Globals := {|
  dns := dns g;
  hostedZone := hostedZone g;
  dnsTTL := dnsTTL g;
  ipAddress := ip;
  setupDelay := setupDelay g;
  register := register g;
  unRegister := unRegister g
|}.

(** ** Contexts *)

(** The two contexts of the program: [context.Background()], whose [Done]
    channel is nil and never ready, and the one made in [main] by
    [signal.NotifyContext(context.Background(), SIGTERM, SIGINT)], which is
    done from the first such signal on. *)
Inductive Context := Background | NotifyContext.

(** ** The outside world *)

Inductive ImdsResult :=
| ImdsErr (err : string)            (* client.GetMetadata failed *)
| ImdsReadErr (err : string)        (* io.ReadAll(output.Content) failed *)
| ImdsContent (body : string).

Inductive HttpResult := HttpErr (err : string) | HttpBody (body : string).

Inductive DecodeResult := DecodeErr (err : string) | Decoded (doc : ecsMetadata).

Record World := {
  (** [flag.Parse()]: [None] when the command line is rejected (the flag
      package exits with status 2), else the values of all flags. *)
  flagParse : option Globals;
  (** [config.LoadDefaultConfig]: [Some err] on failure. *)
  loadDefaultConfig : option string;
  imdsGetMetadata : ImdsResult;
  getenv : string -> string;
  httpGet : string -> HttpResult;
  jsonDecode : string -> DecodeResult;
  (** Answer to the n-th [ChangeResourceRecordSets] call of the run. *)
  changeResourceRecordSets : nat -> ChangeResourceRecordSetsInput -> SubmitResult;
  (** Answer to the n-th [GetChange] call of the run. *)
  getChange : nat -> QueryResult;
  (** Time (ns since [main] started) of the first SIGTERM or SIGINT. *)
  signalAt : option Z;
  (** Outcome of a [select] whose timer and [ctx.Done()] become ready at the
      same instant ([true]: the timer case is taken). *)
  timerWinsTie : bool
}.

(** ** Effects, trace and state *)

(** The functions whose entry and normal return are recorded in the trace
    ([EvCall] with the context argument, [EvReturn]); these two events are
    bookkeeping, the other events are effects of the program. *)
Inductive Func := FsetupDNS | FtearDownDNS | FwaitForSync.

(** An argument of a formatted log line. *)
Inductive Arg := AStr (s : string) | AInt (z : Z).

Inductive Event :=
| EvLog (fmt : string) (args : list Arg)
| EvCall (f : Func) (ctx : Context)
| EvReturn (f : Func)
| EvSleep (d : Go.Duration)                                (* time.Sleep *)
| EvSleepCtx (ctx : Context) (d : Go.Duration) (cancelled : bool)
| EvSubmit (ctx : Context) (input : ChangeResourceRecordSetsInput) (res : SubmitResult)
| EvQuery (ctx : Context) (changeId : string) (res : QueryResult)
| EvAwait (ctx : Context)              (* starts to receive from ctx.Done() *)
| EvDone (ctx : Context).              (* the receive from ctx.Done() returns *)

Record State := {
  globals : Globals;
  now : Z;
  submitCalls : nat;
  queryCalls : nat;
  trace : list (Z * Event)       (* oldest first, stamped with the clock *)
}.

Definition initState : State := {|
  globals := flagDefaults;
  now := 0;
  submitCalls := 0;
  queryCalls := 0;
  trace := []
|}.

(** Why a run stops without returning. *)
Inductive Stop :=
| Exited (code : Z)      (* os.Exit, from log.Fatal or the flag package *)
| Panicked (msg : string)
| Blocked                (* parked for ever on a channel receive *)
| OutOfFuel.             (* the model's poll budget ran out *)

Inductive Result (A : Type) :=
| Ret (a : A) (st : State)
| Halt (why : Stop) (st : State).
Arguments Ret {A} a st.
Arguments Halt {A} why st.

Definition final {A} (r : Result A) : State :=
  match r with Ret _ st => st | Halt _ st => st end.

Definition M (A : Type) := State -> Result A.

Definition ret {A} (a : A) : M A := fun st => Ret a st.

Definition bind {A B} (m : M A) (k : A -> M B) : M B :=
  fun st => match m st with
            | Ret a st' => k a st'
            | Halt why st' => Halt why st'
            end.

Notation "x <- m ;; k" := (bind m (fun x => k))
  (at level 61, m at next level, right associativity).
Notation "m >> k" := (bind m (fun _ => k))
  (at level 61, right associativity).

Definition halt {A} (why : Stop) : M A := fun st => Halt why st.

Definition emit_st (e : Event) (st : State) : State := {|
  globals := globals st;
  now := now st;
  submitCalls := submitCalls st;
  queryCalls := queryCalls st;
  trace := trace st ++ [(now st, e)]
|}.

Definition at_time (t : Z) (st : State) : State := {|
  globals := globals st;
  now := t;
  submitCalls := submitCalls st;
  queryCalls := queryCalls st;
  trace := trace st
|}.

Definition emit (e : Event) : M unit := fun st => Ret tt (emit_st e st).

Definition getGlobals : M Globals := fun st => Ret (globals st) st.

Definition setGlobals (g : Globals) : M unit := fun st =>
  Ret tt {| globals := g; now := now st; submitCalls := submitCalls st;
            queryCalls := queryCalls st; trace := trace st |}.

(** [log.Printf], [log.Print], [log.Infof], [log.Info]. *)
Definition logPrintf (fmt : string) (args : list Arg) : M unit :=
  emit (EvLog fmt args).

(** [log.Fatalf], [log.Fatal]: the line, then [os.Exit(1)]. *)
Definition logFatalf {A} (fmt : string) (args : list Arg) : M A :=
  emit (EvLog fmt args) >> halt (Exited 1).

(** [time.Sleep(d)]: returns at once when [d <= 0]. *)
Definition timeSleep (d : Go.Duration) : M unit := fun st =>
  Ret tt (at_time (now st + Z.max 0 d) (emit_st (EvSleep d) st)).

(** [xs[i]] on a slice: a run-time panic when out of range. *)
Definition index {A} (xs : list A) (i : nat) : M A :=
  match nth_error xs i with
  | Some x => ret x
  | None => halt (Panicked "index out of range")
  end.

(** ** The program *)

Section Program.

Variable w : World.

(** [ctx.Done()] is ready from this instant on, if ever. *)
Definition doneAt (ctx : Context) : option Z :=
  match ctx with
  | Background => None
  | NotifyContext => signalAt w
  end.

(** [r53.ChangeResourceRecordSets(ctx, input)].  The call takes no time
    and its answer is the world's; the context it is made under is recorded
    with it.  That the SDK fails a call whose context is done is a property
    of worlds, [honoursContext] below, read off the trace. *)
Definition r53ChangeResourceRecordSets (ctx : Context)
    (input : ChangeResourceRecordSetsInput) : M SubmitResult := fun st =>
  let res := changeResourceRecordSets w (submitCalls st) input in
  let st1 := emit_st (EvSubmit ctx input res) st in
  Ret res {| globals := globals st1; now := now st1;
             submitCalls := S (submitCalls st1);
             queryCalls := queryCalls st1; trace := trace st1 |}.

(** [r53.GetChange(ctx, &route53.GetChangeInput{Id: id})].  As above: no
    time passes, the answer is the world's and the context is recorded.  A
    signal that comes while the call is in flight is a world in which the
    signal comes at the instant of the call, the timer wins the [select]
    and the answer is an error. *)
Definition r53GetChange (ctx : Context) (changeId : string) : M QueryResult := fun st =>
  let res := getChange w (queryCalls st) in
  let st1 := emit_st (EvQuery ctx changeId res) st in
  Ret res {| globals := globals st1; now := now st1;
             submitCalls := submitCalls st1;
             queryCalls := S (queryCalls st1); trace := trace st1 |}.

(** [SleepWithContext]: a [select] between a timer of [d] and
    [ctx.Done()].  Returns [None] for Go's nil and [Some err] for
    [ctx.Err()]. *)
Definition SleepWithContext (ctx : Context) (d : Go.Duration) : M (option string) := fun st =>
  let fire := now st + Z.max 0 d in
  let timer := Ret None (at_time fire (emit_st (EvSleepCtx ctx d false) st)) in
  match doneAt ctx with
  | None => timer
  | Some s =>
      let done := Z.max (now st) s in
      let cancelled :=
        Ret (Some "context canceled") (at_time done (emit_st (EvSleepCtx ctx d true) st)) in
      if done <? fire then cancelled
      else if fire <? done then timer
      else if timerWinsTie w then timer else cancelled
  end.

(** [<-ctx.Done()]. *)
Definition awaitDone (ctx : Context) : M unit := fun st =>
  let st1 := emit_st (EvAwait ctx) st in
  match doneAt ctx with
  | None => Halt Blocked st1
  | Some s => Ret tt (emit_st (EvDone ctx) (at_time (Z.max (now st) s) st1))
  end.

(** [getEcsMetadata]: it touches nothing but the environment and the
    metadata endpoint, so its result is a function of the world. *)
Definition getEcsMetadata : string + ecsMetadata :=
  let uri := getenv w "ECS_CONTAINER_METADATA_URI_V4" in
  let uri := if String.eqb uri "" then getenv w "ECS_CONTAINER_METADATA_URI" else uri in
  match httpGet w uri with
  | HttpErr err => inl err
  | HttpBody body =>
      match jsonDecode w body with
      | DecodeErr err => inl err
      | Decoded metadata => inr metadata
      end
  end.

Definition configureFromFlags (ctx : Context) : M unit :=
  match flagParse w with
  | None => halt (Exited 2)
  | Some flags =>
    setGlobals flags >>
    match loadDefaultConfig w with
    | Some err => logFatalf "Failed to initialize aws config: %v" [AStr err]
    | None =>
      g <- getGlobals ;;
      if String.eqb (ipAddress g) "public-ipv4" then
        logPrintf "Fetching IP Address from EC2 public-ipv4" [] >>
        match imdsGetMetadata w with
        | ImdsErr err =>
            logFatalf "Unable to retrieve the public IPv4 address from the EC2 metadata: %s\n" [AStr err]
        | ImdsReadErr err =>
            logFatalf "Failed to fetch IPV4 public IP: %v" [AStr err]
        | ImdsContent publicIpv4 => setGlobals (set_ipAddress publicIpv4 g)
        end
      else if String.eqb (ipAddress g) "ecs" then
        logPrintf "Fetching IP Address from ECS metadata" [] >>
        match getEcsMetadata with
        | inl err => logFatalf "Failed to fetch ECS metadata: %v" [AStr err]
        | inr metadata =>
            network <- index (Networks metadata) 0 ;;
            address <- index (IPv4Addresses network) 0 ;;
            setGlobals (set_ipAddress address g) >>
            if String.eqb (DesiredStatus metadata) "STOPPED" then
              logFatalf "ECS container is being stopped, exiting" []
            else ret tt
        end
      else ret tt
    end
  end.

Definition dumpConfig (version : string) : M unit :=
  g <- getGlobals ;;
  logPrintf "Version=%v" [AStr version] >>
  logPrintf "DNS=%v" [AStr (dns g)] >>
  logPrintf "DNSTTL=%v" [AInt (dnsTTL g)] >>
  logPrintf "HOSTEDZONE=%v" [AStr (hostedZone g)] >>
  logPrintf "IPADDRESS=%v" [AStr (ipAddress g)] >>
  logPrintf "SETUPDELAY=%v" [AInt (setupDelay g)].

(** The [input] literal of [tearDownDNS]. *)
Definition deleteInput (g : Globals) : ChangeResourceRecordSetsInput := {|
  Batch := {|
    Changes := [ {|
      Action := ChangeActionDelete;
      RecordSet := {|
        Name := dns g;
        ResourceRecords := [ {| Value := ipAddress g |} ];
        TTL := dnsTTL g;             (* int64(dnsTTL): the identity *)
        Type_ := RRTypeA;
        Weight := 100;
        SetIdentifier := ipAddress g
      |}
    |} ];
    Comment := None
  |};
  HostedZoneId := hostedZone g
|}.

(** The [input] literal of [setupDNS]. *)
Definition upsertInput (g : Globals) : ChangeResourceRecordSetsInput := {|
  Batch := {|
    Changes := [ {|
      Action := ChangeActionUpsert;
      RecordSet := {|
        Name := dns g;
        ResourceRecords := [ {| Value := ipAddress g |} ];
        TTL := dnsTTL g;             (* int64(dnsTTL): the identity *)
        Type_ := RRTypeA;
        Weight := 100;
        SetIdentifier := ipAddress g
      |}
    |} ];
    Comment := Some "route53-sidecar"
  |};
  HostedZoneId := hostedZone g
|}.

(** The poll loop of [waitForSync].  [fuel] bounds the number of
    iterations; the value returned is the local [failures] when the loop
    is left (by [return] on cancellation or by [break] on INSYNC). *)
Fixpoint waitForSync_loop (fuel : nat) (ctx : Context) (changeId : string)
    (failures : Z) : M Z :=
  match fuel with
  | O => halt OutOfFuel
  | S fuel' =>
      err <- SleepWithContext ctx (5 * Go.Second) ;;
      match err with
      | Some _ =>
          logPrintf "Context cancelled, stop waiting for Route53 ChangeSet to propogate" [] >>
          ret failures
      | None =>
          res <- r53GetChange ctx changeId ;;
          match res with
          | QueryErr err =>
              logPrintf "Failed getting ChangeSet result: %v" [AStr err] >>
              let failures := failures + 1 in
              if failures >? 3 then
                logFatalf "Failed the maximum times getting changeset, exiting" []
              else waitForSync_loop fuel' ctx changeId failures
          | QueryOk status =>
              if String.eqb status "INSYNC" then
                logPrintf "Route53 Change Completed" [] >>
                ret failures
              else
                logPrintf "Route53 Change not yet propogated (ChangeInfo.Status = %s)..." [AStr status] >>
                waitForSync_loop fuel' ctx changeId failures
          end
      end
  end.

Definition waitForSync (fuel : nat) (ctx : Context) (changeId : string) : M unit :=
  emit (EvCall FwaitForSync ctx) >>
  waitForSync_loop fuel ctx changeId 0 >>
  emit (EvReturn FwaitForSync).

Definition tearDownDNS (fuel : nat) (ctx : Context) : M unit :=
  emit (EvCall FtearDownDNS ctx) >>
  g <- getGlobals ;;
  logPrintf "Tearing down Route 53 DNS Name A %s => %s" [AStr (dns g); AStr (ipAddress g)] >>
  let input := deleteInput g in
  res <- r53ChangeResourceRecordSets ctx input ;;
  match res with
  | SubmitErr err => logFatalf "Failed to delete DNS, exiting: %v" [AStr err]
  | SubmitOk changeId =>
      logPrintf "Request sent to Route 53..." [] >>
      waitForSync fuel ctx changeId >>
      logPrintf "Waiting for DNS Timeout to expire (%d seconds)" [AInt (dnsTTL g)] >>
      timeSleep (Go.seconds (dnsTTL g)) >>
      logPrintf "DNS Timeout expiry finished" [] >>
      emit (EvReturn FtearDownDNS)
  end.

Definition setupDNS (fuel : nat) (ctx : Context) : M unit :=
  emit (EvCall FsetupDNS ctx) >>
  g <- getGlobals ;;
  logPrintf "Setting up Route 53 DNS Name A %s => %s" [AStr (dns g); AStr (ipAddress g)] >>
  (if setupDelay g >? 0 then
     logPrintf "Waiting %d seconds before setting up DNS (SETUPDELAY)" [AInt (setupDelay g)] >>
     timeSleep (Go.seconds (setupDelay g)) >>
     logPrintf "Finished waiting" []
   else ret tt) >>
  let input := upsertInput g in
  res <- r53ChangeResourceRecordSets ctx input ;;
  match res with
  | SubmitErr err =>
      logPrintf "Failed to create DNS: %v" [AStr err] >>
      emit (EvReturn FsetupDNS)
  | SubmitOk changeId =>
      logPrintf "Request sent to Route 53..." [] >>
      waitForSync fuel ctx changeId >>
      emit (EvReturn FsetupDNS)
  end.

(** [main]; [fuel] is the poll budget given to each [waitForSync]. *)
Definition main (fuel : nat) : M unit :=
  let ctx := NotifyContext in
  configureFromFlags ctx >>
  dumpConfig "dev" >>
  g <- getGlobals ;;
  if register g then
    setupDNS fuel ctx
  else if unRegister g then
    tearDownDNS fuel ctx
  else
    setupDNS fuel ctx >>
    awaitDone ctx >>
    tearDownDNS fuel Background.

End Program.

(** A run of the whole process. *)
Definition run (w : World) (fuel : nat) : Result unit := main w fuel initState.

(** ** Reading a trace *)

(** The part of the trace written by a computation started in [st]. *)
Definition added {A} (st : State) (r : Result A) : list (Z * Event) :=
  skipn (List.length (trace st)) (trace (final r)).

(** The requests submitted to Route 53, oldest first. *)
Definition submitted (tr : list (Z * Event)) : list ChangeResourceRecordSetsInput :=
  flat_map (fun te => match snd te with
                      | EvSubmit _ input _ => [input]
                      | _ => []
                      end) tr.

(** The spec's RecordSpec and ChangeRequest, read off an SDK input. *)
Record RecordSpec := {
  name : string;
  zoneID : string;
  recordType : string;
  address : string;
  ttlSeconds : Z;
  weight : Z;
  setIdentifier : string
}.

Definition changeRequest (input : ChangeResourceRecordSetsInput)
    : option (ChangeAction * RecordSpec) :=
  match Changes (Batch input) with
  | [c] =>
      match ResourceRecords (RecordSet c) with
      | [r] => Some (Action c,
                     {| name := Name (RecordSet c);
                        zoneID := HostedZoneId input;
                        recordType := Type_ (RecordSet c);
                        address := Value r;
                        ttlSeconds := TTL (RecordSet c);
                        weight := Weight (RecordSet c);
                        setIdentifier := SetIdentifier (RecordSet c) |})
      | _ => None
      end
  | _ => None
  end.

(** Number of failed [GetChange] calls among calls [from], ..., [from + k - 1]
    of the run. *)
Fixpoint failedQueries (w : World) (from k : nat) : nat :=
  match k with
  | O => O
  | S k' =>
      (match getChange w from with QueryErr _ => 1 | QueryOk _ => 0 end
       + failedQueries w (S from) k')%nat
  end.

(** The answers to [GetChange] calls [from], ..., [from + k - 1]. *)
Definition answers (w : World) (from k : nat) : list QueryResult :=
  map (getChange w) (seq from k).

Definition isErr (q : QueryResult) : bool :=
  match q with QueryErr _ => true | QueryOk _ => false end.

Definition inSync (q : QueryResult) : bool :=
  match q with QueryErr _ => false | QueryOk status => String.eqb status "INSYNC" end.

Definition countErr (qs : list QueryResult) : Z :=
  Z.of_nat (List.length (filter isErr qs)).

Definition isFatal {A} (r : Result A) : bool :=
  match r with Halt (Exited _) _ => true | _ => false end.

Definition returned {A} (r : Result A) : bool :=
  match r with Ret _ _ => true | Halt _ _ => false end.

(** The events after the first call of [tearDownDNS]. *)
Fixpoint afterTearDown (tr : list (Z * Event)) : list Event :=
  match tr with
  | [] => []
  | (_, EvCall FtearDownDNS _) :: rest => map snd rest
  | _ :: rest => afterTearDown rest
  end.

(** An event of a wait that cancellation cannot reach. *)
Definition uncancellable (e : Event) : bool :=
  match e with
  | EvCall FwaitForSync Background => true
  | EvCall FwaitForSync NotifyContext => false
  | EvSleepCtx Background _ false => true
  | EvSleepCtx _ _ _ => false
  | _ => true
  end.

(** Whether [waitForSync] was entered in this stretch of the trace. *)
Definition waitStarted (tr : list (Z * Event)) : bool :=
  existsb (fun te => match snd te with
                     | EvCall FwaitForSync _ => true
                     | _ => false
                     end) tr.

(** ** The run up to the dispatch on the mode *)

(** [configureFromFlags(ctx); dumpConfig()] from the initial state. *)
Definition configured (w : World) : Result unit :=
  (configureFromFlags w NotifyContext >> dumpConfig "dev") initState.

(** The three modes of [main]. *)
Definition dispatch (w : World) (fuel : nat) (g : Globals) : M unit :=
  if register g then
    setupDNS w fuel NotifyContext
  else if unRegister g then
    tearDownDNS w fuel NotifyContext
  else
    setupDNS w fuel NotifyContext >>
    awaitDone w NotifyContext >>
    tearDownDNS w fuel Background.

(** ** Timers against cancellation *)

(** A timer due at [t] fires before [ctx] is seen done. *)
Definition quiet (w : World) (ctx : Context) (t : Z) : Prop :=
  match doneAt w ctx with
  | None => True
  | Some s => t < s \/ (t = s /\ timerWinsTie w = true)
  end.


(** The poll interval of [waitForSync]. *)
Definition pollInterval : Go.Duration := 5 * Go.Second.


(** ** Sample worlds *)

Module Sample.

Definition flags : Globals := {|
  dns := "app.example.com";
  hostedZone := "Z2AAAABCDEFGT4";
  dnsTTL := 10;
  ipAddress := "10.0.0.5";
  setupDelay := 0;
  register := false;
  unRegister := false
|}.

Definition with_mode (reg unreg : bool) (g : Globals) : Globals := {|
  dns := dns g; hostedZone := hostedZone g; dnsTTL := dnsTTL g;
  ipAddress := ipAddress g; setupDelay := setupDelay g;
  register := reg; unRegister := unreg
|}.

Definition with_ttl (ttl : Z) (g : Globals) : Globals := {|
  dns := dns g; hostedZone := hostedZone g; dnsTTL := ttl;
  ipAddress := ipAddress g; setupDelay := setupDelay g;
  register := register g; unRegister := unRegister g
|}.

(** A fake directory service: every submission gets [submit]; the queries
    are answered from [script], then with INSYNC. *)
Definition world (g : Globals) (submit : SubmitResult) (script : list QueryResult)
    (signal : option Z) : World := {|
  flagParse := Some g;
  loadDefaultConfig := None;
  imdsGetMetadata := ImdsContent "203.0.113.7";
  getenv := fun _ => "http://169.254.170.2/v4/task";
  httpGet := fun _ => HttpErr "connection refused";
  jsonDecode := fun _ => DecodeErr "unexpected end of JSON input";
  changeResourceRecordSets := fun _ _ => submit;
  getChange := fun n => nth n script (QueryOk "INSYNC");
  signalAt := signal;
  timerWinsTie := false
|}.

(** A world whose ECS metadata endpoint serves [doc]. *)
Definition ecsWorld (doc : ecsMetadata) : World := {|
  flagParse := Some (set_ipAddress "ecs" flags);
  loadDefaultConfig := None;
  imdsGetMetadata := ImdsErr "no instance metadata";
  getenv := fun _ => "http://169.254.170.2/v4/task";
  httpGet := fun _ => HttpBody "{}";
  jsonDecode := fun _ => Decoded doc;
  changeResourceRecordSets := fun _ _ => SubmitOk "/change/C1";
  getChange := fun _ => QueryOk "INSYNC";
  signalAt := Some (60 * Go.Second);
  timerWinsTie := false
|}.

Definition stoppedDoc : ecsMetadata := {|
  DesiredStatus := "STOPPED";
  Networks := [ {| IPv4Addresses := ["10.0.0.5"] |} ]
|}.

Definition noNetworksDoc : ecsMetadata := {|
  DesiredStatus := "STOPPED";
  Networks := []
|}.

Definition runningDoc : ecsMetadata := {|
  DesiredStatus := "RUNNING";
  Networks := [ {| IPv4Addresses := ["10.0.0.5"] |} ]
|}.

Definition pending : QueryResult := QueryOk "PENDING".
Definition failed : QueryResult := QueryErr "RequestError: send request failed".

End Sample.

(** ** Footprints: which events a function may write *)

Definition isLog (e : Event) : Prop :=
  match e with EvLog _ _ => True | _ => False end.

Section FootprintDefs.

Variable w : World.

(** [m] leaves the package variables [G] alone and writes only events
    in [P]. *)
Definition keeps (G : Globals) (P : Event -> Prop) {A} (m : M A) : Prop :=
  forall st, globals st = G ->
    globals (final (m st)) = G /\
    exists delta, trace (final (m st)) = trace st ++ delta /\
                  Forall (fun te => P (snd te)) delta.

(** Events of the poll loop. *)
Definition loopEv (ctx : Context) (e : Event) : Prop :=
  match e with
  | EvLog _ _ => True
  | EvSleepCtx c d cancelled =>
      c = ctx /\ d = 5 * Go.Second /\ (cancelled = true -> doneAt w ctx <> None)
  | EvQuery c _ _ => c = ctx
  | _ => False
  end.

Definition waitEv (ctx : Context) (e : Event) : Prop :=
  loopEv ctx e \/ e = EvCall FwaitForSync ctx \/ e = EvReturn FwaitForSync.

Definition setupEv (G : Globals) (ctx : Context) (e : Event) : Prop :=
  waitEv ctx e \/
  match e with
  | EvCall f c => f = FsetupDNS /\ c = ctx
  | EvReturn f => f = FsetupDNS
  | EvSleep d => d = Go.seconds (setupDelay G)
  | EvSubmit c input _ =>
      c = ctx /\ input = upsertInput G
  | _ => False
  end.

Definition tearDownEv (G : Globals) (ctx : Context) (e : Event) : Prop :=
  waitEv ctx e \/
  match e with
  | EvCall f c => f = FtearDownDNS /\ c = ctx
  | EvReturn f => f = FtearDownDNS
  | EvSleep d => d = Go.seconds (dnsTTL G)
  | EvSubmit c input _ =>
      c = ctx /\ input = deleteInput G
  | _ => False
  end.

End FootprintDefs.

(** Events of the run after the configuration [G] is fixed. *)
Definition runEv (w : World) (G : Globals) (e : Event) : Prop :=
  setupEv w G NotifyContext e \/
  tearDownEv w G NotifyContext e \/
  tearDownEv w G Background e \/
  e = EvAwait NotifyContext \/ e = EvDone NotifyContext.

(** The two actions the program asks of Route 53. *)
Definition isUpsertOrDelete (a : ChangeAction) : bool :=
  match a with
  | ChangeActionUpsert | ChangeActionDelete => true
  | ChangeActionCreate => false
  end.

Definition isTearDownCall (e : Event) : bool :=
  match e with EvCall FtearDownDNS _ => true | _ => false end.

Definition isDeleteSubmit (e : Event) : bool :=
  match e with
  | EvSubmit _ input _ =>
      existsb (fun c => match Action c with ChangeActionDelete => true | _ => false end)
              (Changes (Batch input))
  | _ => false
  end.

(** ** The claim on the teardown wait, and worlds that test it *)

(** Every [waitForSync] entered and every poll sleep made once
    [tearDownDNS] has been called runs under [context.Background()] and is
    not cancelled. *)
Definition teardownWaitUncancellable (w : World) (fuel : nat) : Prop :=
  forallb uncancellable (afterTearDown (trace (final (run w fuel)))) = true.

(** Retract-only mode (-unregister), with a signal 7 s into the run. *)
Definition retractOnlySignalled : World :=
  Sample.world (Sample.with_mode false true Sample.flags) (SubmitOk "/change/C2")
               [Sample.pending; Sample.pending; Sample.pending]
               (Some (7 * Go.Second)).

(** Full lifecycle mode, with a signal 60 s into the run. *)
Definition fullLifecycle : World :=
  Sample.world Sample.flags (SubmitOk "/change/C1") [Sample.pending]
               (Some (60 * Go.Second)).

(** Both -register and -unregister given. *)
Definition registerAndUnregister : World :=
  Sample.world (Sample.with_mode true true Sample.flags) (SubmitOk "/change/C1") []
               (Some (60 * Go.Second)).

(** ** The TTL drain, and a world that tests it *)

(** Largest TTL, in seconds, that fits a [time.Duration]. *)
Definition maxDurationSeconds : Z := 9223372036.

(** Whenever the propagation wait of a [tearDownDNS] call completes, the
    call returns, and not before the configured TTL has elapsed. *)
Definition drainsTTL (w : World) (fuel : nat) (ctx : Context) (st : State) : Prop :=
  forall t, In (t, EvReturn FwaitForSync) (added st (tearDownDNS w fuel ctx st)) ->
    exists st', tearDownDNS w fuel ctx st = Ret tt st' /\
                dnsTTL (globals st) * Go.Second <= now st' - t.

(** -unregister -dnsttl=9223372037, against a service that accepts the
    request and confirms it at the first poll. *)
Definition acceptingWorld : World :=
  Sample.world (Sample.with_mode false true (Sample.with_ttl 9223372037 Sample.flags))
               (SubmitOk "/change/C6") [] None.

(** ** Stop reasons *)

(** [m] stops a run only for a reason in [R]. *)
Definition haltsWith (R : Stop -> Prop) {A} (m : M A) : Prop :=
  forall st why st', m st = Halt why st' -> R why.

(** [log.Fatal], or the poll budget of the model. *)
Definition fatalOrFuel (why : Stop) : Prop := why = Exited 1 \/ why = OutOfFuel.

(** ** The test double of [Test_setupDNS] *)

(** [mockRoute53]: the n-th [ChangeResourceRecordSets] returns
    [wantErrs[n]] as its error when there is such an entry ([None] is a nil
    error), always with the change id "mockChangeId"; [GetChange] always
    answers INSYNC.  The rest of the world is [base]. *)
Definition mockRoute53 (wantErrs : list (option string)) (base : World) : World := {|
  flagParse := flagParse base;
  loadDefaultConfig := loadDefaultConfig base;
  imdsGetMetadata := imdsGetMetadata base;
  getenv := getenv base;
  httpGet := httpGet base;
  jsonDecode := jsonDecode base;
  changeResourceRecordSets := fun n _ =>
    match nth_error wantErrs n with
    | Some (Some err) => SubmitErr err
    | _ => SubmitOk "mockChangeId"
    end;
  getChange := fun _ => QueryOk "INSYNC";
  signalAt := signalAt base;
  timerWinsTie := timerWinsTie base
|}.

(** ** When [setupDNS] submits *)

(** The clock when [setupDNS], entered in [st], calls
    [ChangeResourceRecordSets]: after the set-up delay, if there is one. *)
Definition upsertTime (st : State) : Z :=
  if setupDelay (globals st) >? 0
  then now st + Z.max 0 (Go.seconds (setupDelay (globals st)))
  else now st.

Definition isSleep (e : Event) : bool :=
  match e with EvSleep _ => true | _ => false end.

Definition isSubmit (e : Event) : bool :=
  match e with EvSubmit _ _ _ => true | _ => false end.

(** What [setupDNS], entered in [st], writes before it submits: its entry,
    its first log line and, with a positive [setupDelay], the delay. *)
Definition setupPrologue (ctx : Context) (st : State) : list (Z * Event) :=
  let g := globals st in
  (now st, EvCall FsetupDNS ctx) ::
  (now st, EvLog "Setting up Route 53 DNS Name A %s => %s"
                 [AStr (dns g); AStr (ipAddress g)]) ::
  (if setupDelay g >? 0 then
     [(now st, EvLog "Waiting %d seconds before setting up DNS (SETUPDELAY)"
                     [AInt (setupDelay g)]);
      (now st, EvSleep (Go.seconds (setupDelay g)));
      (now st + Z.max 0 (Go.seconds (setupDelay g)), EvLog "Finished waiting" [])]
   else []).

(** The modes of [main], from the parsed flags. *)
Inductive Mode := PublishOnly | RetractOnly | FullLifecycle.

Definition modeOf (g : Globals) : Mode :=
  if register g then PublishOnly
  else if unRegister g then RetractOnly
  else FullLifecycle.

(** -register, against a service that rejects the request. *)
Definition registerRejected : World :=
  Sample.world (Sample.with_mode true false Sample.flags)
               (SubmitErr "InvalidChangeBatch") [] None.

(** Full lifecycle with the default 10 s set-up delay and a signal 3 s into
    the run; the first submission, made under the context that is done by
    then, fails, and the service accepts the next and confirms it. *)
Definition signalledDuringDelay : World :=
  mockRoute53 [Some "context canceled"]
    (Sample.world (set_ipAddress "10.0.0.5" flagDefaults) (SubmitOk "/change/C1")
                  [] (Some (3 * Go.Second))).

(** ** The SDK's contract on contexts *)

(** [ctx] is done at [t]. *)
Definition ctxDoneAt (w : World) (ctx : Context) (t : Z) : bool :=
  match doneAt w ctx with
  | Some s => s <=? t
  | None => false
  end.

(** The SDK fails a call made under a context that is done.  A world is
    free in its answers; a trace honours the contract when every call it
    records under a done context has an error for answer.  With calls that
    take no time, a signal in flight during a call is a signal at the
    instant of the call: the timer of [SleepWithContext] fires at the
    instant of the signal, wins the [select], and the [GetChange] that
    follows runs under the context just done. *)
Definition honoursContext (w : World) (tr : list (Z * Event)) : bool :=
  forallb (fun te =>
             match snd te with
             | EvSubmit ctx _ res =>
                 if ctxDoneAt w ctx (fst te)
                 then match res with SubmitErr _ => true | SubmitOk _ => false end
                 else true
             | EvQuery ctx _ res =>
                 if ctxDoneAt w ctx (fst te) then isErr res else true
             | _ => true
             end) tr.

(** [w], with ties of [select] going to the timer. *)
Definition timerFirst (w : World) : World := {|
  flagParse := flagParse w;
  loadDefaultConfig := loadDefaultConfig w;
  imdsGetMetadata := imdsGetMetadata w;
  getenv := getenv w;
  httpGet := httpGet w;
  jsonDecode := jsonDecode w;
  changeResourceRecordSets := changeResourceRecordSets w;
  getChange := getChange w;
  signalAt := signalAt w;
  timerWinsTie := true
|}.

(** ** The claim on cancellation, and a world that tests it *)



(** Three failed queries, at 5, 10 and 15 s; the signal comes at 20 s, as
    the fourth query is made, and the SDK fails that query. *)
Definition signalDuringQuery : World :=
  timerFirst
    (Sample.world Sample.flags (SubmitOk "/change/C8")
       [Sample.failed; Sample.failed; Sample.failed; QueryErr "context canceled"]
       (Some (20 * Go.Second))).


(** ** The record of a configuration *)

(** The spec's RecordSpec for the package variables [g]. *)
Definition recordSpec (g : Globals) : RecordSpec := {|
  name := dns g;
  zoneID := hostedZone g;
  recordType := "A";
  address := ipAddress g;
  ttlSeconds := dnsTTL g;
  weight := 100;
  setIdentifier := ipAddress g
|}.


(** * Proofs *)

(** ** Footprint lemmas *)

Section Footprint.

Variable w : World.

Lemma keeps_ret G P A (a : A) : keeps G P (ret a).
Proof.
  intros st HG; split; [exact HG|]. exists []; simpl.
  now rewrite app_nil_r.
Qed.

Lemma keeps_halt G P A why : keeps G P (@halt A why).
Proof.
  intros st HG; split; [exact HG|]. exists []; simpl.
  now rewrite app_nil_r.
Qed.

Lemma keeps_bind G P A B (m : M A) (k : A -> M B) :
  keeps G P m -> (forall a, keeps G P (k a)) -> keeps G P (bind m k).
Proof.
  intros Hm Hk st HG. unfold bind.
  destruct (Hm st HG) as [Hg [d [Ht Hf]]].
  destruct (m st) as [a st1 | why st1]; simpl in *.
  - destruct (Hk a st1 Hg) as [Hg2 [d2 [Ht2 Hf2]]].
    split; [exact Hg2|]. exists (d ++ d2).
    rewrite Ht2, Ht, app_assoc. split; [reflexivity|].
    apply Forall_app; split; assumption.
  - split; [exact Hg|]. exists d; split; assumption.
Qed.

Lemma keeps_getGlobals G P A (k : Globals -> M A) :
  keeps G P (k G) -> keeps G P (bind getGlobals k).
Proof.
  intros Hk st HG. unfold bind, getGlobals. rewrite HG. apply Hk, HG.
Qed.

Lemma keeps_emit G (P : Event -> Prop) e : P e -> keeps G P (emit e).
Proof.
  intros He st HG; split; [exact HG|].
  exists [(now st, e)]; simpl; split; [reflexivity|].
  constructor; [exact He|constructor].
Qed.

Lemma keeps_log G (P : Event -> Prop) fmt args :
  P (EvLog fmt args) -> keeps G P (logPrintf fmt args).
Proof. apply keeps_emit. Qed.

Lemma keeps_fatal G (P : Event -> Prop) A fmt args :
  P (EvLog fmt args) -> keeps G P (@logFatalf A fmt args).
Proof.
  intros He. unfold logFatalf. apply keeps_bind.
  - now apply keeps_emit.
  - intros _. apply keeps_halt.
Qed.

Lemma keeps_timeSleep G (P : Event -> Prop) d :
  P (EvSleep d) -> keeps G P (timeSleep d).
Proof.
  intros He st HG; split; [exact HG|].
  exists [(now st, EvSleep d)]; simpl; split; [reflexivity|].
  constructor; [exact He|constructor].
Qed.

Lemma keeps_submit G (P : Event -> Prop) ctx input :
  (forall res, P (EvSubmit ctx input res)) ->
  keeps G P (r53ChangeResourceRecordSets w ctx input).
Proof.
  intros He st HG; split; [exact HG|].
  eexists; simpl; split; [reflexivity|].
  constructor; [apply He|constructor].
Qed.

Lemma keeps_query G (P : Event -> Prop) ctx id :
  (forall res, P (EvQuery ctx id res)) ->
  keeps G P (r53GetChange w ctx id).
Proof.
  intros He st HG; split; [exact HG|].
  eexists; simpl; split; [reflexivity|].
  constructor; [apply He|constructor].
Qed.

(** The two ways out of [SleepWithContext]. *)
Lemma SleepWithContext_cases ctx d st :
  SleepWithContext w ctx d st =
    Ret None (at_time (now st + Z.max 0 d) (emit_st (EvSleepCtx ctx d false) st))
  \/ exists s, doneAt w ctx = Some s /\ Z.max (now st) s <= now st + Z.max 0 d /\
       SleepWithContext w ctx d st =
         Ret (Some "context canceled")
             (at_time (Z.max (now st) s) (emit_st (EvSleepCtx ctx d true) st)).
Proof.
  unfold SleepWithContext.
  destruct (doneAt w ctx) as [s|]; [|now left].
  destruct (Z.ltb_spec (Z.max (now st) s) (now st + Z.max 0 d)).
  - right. exists s. split; [reflexivity|]. split; [lia|reflexivity].
  - destruct (Z.ltb_spec (now st + Z.max 0 d) (Z.max (now st) s)); [now left|].
    destruct (timerWinsTie w); [now left|].
    right. exists s. split; [reflexivity|]. split; [lia|reflexivity].
Qed.

Lemma keeps_SleepWithContext G (P : Event -> Prop) ctx d :
  P (EvSleepCtx ctx d false) ->
  (doneAt w ctx <> None -> P (EvSleepCtx ctx d true)) ->
  keeps G P (SleepWithContext w ctx d).
Proof.
  intros Hf Ht st HG.
  destruct (SleepWithContext_cases ctx d st) as [E | [s [Hs [_ E]]]]; rewrite E; simpl.
  - split; [exact HG|]. eexists; split; [reflexivity|].
    constructor; [exact Hf|constructor].
  - split; [exact HG|]. eexists; split; [reflexivity|].
    constructor; [|constructor]. apply Ht. congruence.
Qed.

Lemma keeps_loop G ctx id fuel :
  forall failures, keeps G (loopEv w ctx) (waitForSync_loop w fuel ctx id failures).
Proof.
  induction fuel as [|fuel IH]; intros failures; simpl.
  - apply keeps_halt.
  - apply keeps_bind.
    + apply keeps_SleepWithContext; simpl; auto.
      repeat split; auto. discriminate.
    + intros [err|].
      * apply keeps_bind; [now apply keeps_log | intros; apply keeps_ret].
      * apply keeps_bind; [now apply keeps_query|].
        intros [err|status].
        -- apply keeps_bind; [now apply keeps_log|]. intros _.
           destruct (failures + 1 >? 3); [now apply keeps_fatal | apply IH].
        -- destruct (String.eqb status "INSYNC").
           ++ apply keeps_bind; [now apply keeps_log | intros; apply keeps_ret].
           ++ apply keeps_bind; [now apply keeps_log | intros; apply IH].
Qed.

Lemma keeps_weaken G (P Q : Event -> Prop) A (m : M A) :
  (forall e, P e -> Q e) -> keeps G P m -> keeps G Q m.
Proof.
  intros HPQ Hm st HG. destruct (Hm st HG) as [Hg [d [Ht Hf]]].
  split; [exact Hg|]. exists d; split; [exact Ht|].
  eapply Forall_impl; [|exact Hf]. intros te; apply HPQ.
Qed.

Lemma keeps_waitForSync G ctx id fuel :
  keeps G (waitEv w ctx) (waitForSync w fuel ctx id).
Proof.
  unfold waitForSync.
  apply keeps_bind; [apply keeps_emit; right; now left|]. intros _.
  apply keeps_bind.
  - eapply keeps_weaken; [|apply keeps_loop]. intros e He; now left.
  - intros _. apply keeps_emit; right; now right.
Qed.

Lemma keeps_setupDNS G ctx fuel :
  keeps G (setupEv w G ctx) (setupDNS w fuel ctx).
Proof.
  unfold setupDNS.
  apply keeps_bind; [apply keeps_emit; right; simpl; auto|]. intros _.
  apply keeps_getGlobals.
  apply keeps_bind; [apply keeps_log; left; left; exact I|]. intros _.
  apply keeps_bind.
  { destruct (setupDelay G >? 0); [|apply keeps_ret].
    apply keeps_bind; [apply keeps_log; left; left; exact I|]. intros _.
    apply keeps_bind; [apply keeps_timeSleep; right; reflexivity|]. intros _.
    apply keeps_log; left; left; exact I. }
  intros _.
  apply keeps_bind; [apply keeps_submit; intros; right; simpl; auto|].
  intros [err|id].
  - apply keeps_bind; [apply keeps_log; left; left; exact I|]. intros _.
    apply keeps_emit; right; reflexivity.
  - apply keeps_bind; [apply keeps_log; left; left; exact I|]. intros _.
    apply keeps_bind.
    + eapply keeps_weaken; [|apply keeps_waitForSync]. intros e He; now left.
    + intros _. apply keeps_emit; right; reflexivity.
Qed.

Lemma keeps_tearDownDNS G ctx fuel :
  keeps G (tearDownEv w G ctx) (tearDownDNS w fuel ctx).
Proof.
  unfold tearDownDNS.
  apply keeps_bind; [apply keeps_emit; right; simpl; auto|]. intros _.
  apply keeps_getGlobals.
  apply keeps_bind; [apply keeps_log; left; left; exact I|]. intros _.
  apply keeps_bind; [apply keeps_submit; intros; right; simpl; auto|].
  intros [err|id].
  - apply keeps_fatal; left; left; exact I.
  - apply keeps_bind; [apply keeps_log; left; left; exact I|]. intros _.
    apply keeps_bind.
    { eapply keeps_weaken; [|apply keeps_waitForSync]. intros e He; now left. }
    intros _.
    apply keeps_bind; [apply keeps_log; left; left; exact I|]. intros _.
    apply keeps_bind; [apply keeps_timeSleep; right; reflexivity|]. intros _.
    apply keeps_bind; [apply keeps_log; left; left; exact I|]. intros _.
    apply keeps_emit; right; reflexivity.
Qed.

End Footprint.

(** ** Submission errors *)

Lemma added_app A (st : State) (r : Result A) delta :
  trace (final r) = trace st ++ delta -> added st r = delta.
Proof.
  intros E. unfold added. rewrite E, skipn_app, skipn_all, Nat.sub_diag.
  reflexivity.
Qed.

Ltac run_monad :=
  unfold bind, emit, getGlobals, setGlobals, logPrintf, logFatalf, halt, ret,
         timeSleep, r53ChangeResourceRecordSets, r53GetChange; simpl.

(** C3. A failed submission is logged by [setupDNS], which then returns
    normally without entering [waitForSync] and without any query; the same
    failure in [tearDownDNS] is [log.Fatalf]: the process exits with
    status 1, again before any wait. *)
Theorem submit_error_publish_vs_retract w fuel ctx st err :
  (changeResourceRecordSets w (submitCalls st) (upsertInput (globals st)) = SubmitErr err ->
   exists st',
     setupDNS w fuel ctx st = Ret tt st' /\
     In (EvLog "Failed to create DNS: %v" [AStr err])
        (map snd (added st (setupDNS w fuel ctx st))) /\
     waitStarted (added st (setupDNS w fuel ctx st)) = false /\
     queryCalls st' = queryCalls st) /\
  (changeResourceRecordSets w (submitCalls st) (deleteInput (globals st)) = SubmitErr err ->
   exists st',
     tearDownDNS w fuel ctx st = Halt (Exited 1) st' /\
     last (map snd (trace st')) (EvDone ctx) =
       EvLog "Failed to delete DNS, exiting: %v" [AStr err] /\
     waitStarted (added st (tearDownDNS w fuel ctx st)) = false /\
     queryCalls st' = queryCalls st).
Proof.
  split; intros H.
  - unfold setupDNS. run_monad.
    destruct (setupDelay (globals st) >? 0); run_monad; rewrite H; simpl;
      (eexists; split; [reflexivity|]);
      (erewrite added_app by (simpl; repeat rewrite <- app_assoc; reflexivity));
      simpl; intuition.
  - unfold tearDownDNS. run_monad. rewrite H; simpl.
    eexists; split; [reflexivity|].
    erewrite added_app by (simpl; repeat rewrite <- app_assoc; reflexivity).
    simpl. split; [|split; reflexivity].
    rewrite map_app. simpl. apply last_last.
Qed.

Lemma submit_error_publish_vs_retract_witness :
  let w := Sample.world Sample.flags (SubmitErr "InvalidChangeBatch") [] None in
  (exists st', setupDNS w 3 NotifyContext initState = Ret tt st' /\
               queryCalls st' = 0%nat) /\
  (exists st', tearDownDNS w 3 Background initState = Halt (Exited 1) st' /\
               queryCalls st' = 0%nat).
Proof.
  intros w.
  destruct (submit_error_publish_vs_retract w 3 NotifyContext initState "InvalidChangeBatch")
    as [H1 _].
  destruct (submit_error_publish_vs_retract w 3 Background initState "InvalidChangeBatch")
    as [_ H2].
  split.
  - destruct (H1 eq_refl) as [st' [E [_ [_ Q]]]]. exists st'. split; [exact E|exact Q].
  - destruct (H2 eq_refl) as [st' [E [_ [_ Q]]]]. exists st'. split; [exact E|exact Q].
Defined.

(** ** Address resolution from the ECS task metadata *)

(** C4. When the ECS metadata document says DesiredStatus = "STOPPED", the
    run never gets past [configureFromFlags]: the process stops with a
    non-zero status (by [log.Fatalf], status 1, or by the index panic when
    the document has no first address) whatever addresses the document
    holds, and nothing is submitted to or asked of Route 53.  With a first
    address present and the AWS configuration loaded, the stop is the
    [log.Fatalf] of the STOPPED check. *)
Theorem stopped_task_is_fatal w fuel flags doc :
  flagParse w = Some flags ->
  ipAddress flags = "ecs" ->
  getEcsMetadata w = inr doc ->
  DesiredStatus doc = "STOPPED" ->
  exists why st',
    run w fuel = Halt why st' /\
    (why = Exited 1 \/ why = Panicked "index out of range") /\
    submitted (trace st') = [] /\
    submitCalls st' = 0%nat /\ queryCalls st' = 0%nat /\
    (forall n ns a ips,
        loadDefaultConfig w = None ->
        Networks doc = n :: ns -> IPv4Addresses n = a :: ips ->
        why = Exited 1 /\
        last (map snd (trace st')) (EvDone NotifyContext) =
          EvLog "ECS container is being stopped, exiting" []).
Proof.
  intros HF HI HM HS.
  unfold run, main, configureFromFlags. rewrite HF. run_monad.
  destruct (loadDefaultConfig w) as [err|] eqn:HC; run_monad.
  { do 2 eexists. split; [reflexivity|]. simpl. intuition congruence. }
  rewrite HI. simpl. rewrite HM.
  destruct (Networks doc) as [|n ns] eqn:HN; unfold index; run_monad.
  { do 2 eexists. split; [reflexivity|]. simpl. intuition congruence. }
  destruct (IPv4Addresses n) as [|a ips] eqn:HA; run_monad.
  { do 2 eexists. split; [reflexivity|]. simpl.
    repeat split; auto; intros; congruence. }
  rewrite HS. simpl.
  do 2 eexists. split; [reflexivity|]. simpl. repeat split; auto.
Qed.

Lemma stopped_task_is_fatal_witness :
  exists st', run (Sample.ecsWorld Sample.stoppedDoc) 3 = Halt (Exited 1) st' /\
              submitted (trace st') = [].
Proof.
  destruct (stopped_task_is_fatal (Sample.ecsWorld Sample.stoppedDoc) 3
              (set_ipAddress "ecs" Sample.flags) Sample.stoppedDoc
              eq_refl eq_refl eq_refl eq_refl)
    as [why [st' [E [_ [S [_ [_ F]]]]]]].
  destruct (F _ _ _ _ eq_refl eq_refl eq_refl) as [W _].
  exists st'. rewrite <- W. split; [exact E|exact S].
Defined.

(** C9. [metadata.Networks[0].IPv4Addresses[0]] is evaluated with no length
    check and before DesiredStatus is looked at: a document with no network,
    or whose first network has no address, makes the run panic on the index
    (not [log.Fatalf]); the STOPPED check is never reached, [ipAddress] is
    not assigned and Route 53 is not called. *)
Theorem ecs_index_unguarded w fuel flags doc :
  flagParse w = Some flags ->
  loadDefaultConfig w = None ->
  ipAddress flags = "ecs" ->
  getEcsMetadata w = inr doc ->
  (Networks doc = [] \/
   exists n ns, Networks doc = n :: ns /\ IPv4Addresses n = []) ->
  exists st',
    run w fuel = Halt (Panicked "index out of range") st' /\
    map snd (trace st') = [EvLog "Fetching IP Address from ECS metadata" []] /\
    ipAddress (globals st') = "ecs" /\
    submitCalls st' = 0%nat.
Proof.
  intros HF HC HI HM HD.
  unfold run, main, configureFromFlags. rewrite HF, HC. run_monad.
  rewrite HI. simpl. rewrite HM.
  destruct HD as [HN | [n [ns [HN HA]]]]; rewrite HN; unfold index; run_monad.
  - eexists. split; [reflexivity|]. simpl. auto.
  - rewrite HA. run_monad. eexists. split; [reflexivity|]. simpl. auto.
Qed.

Lemma ecs_index_unguarded_witness :
  exists st',
    run (Sample.ecsWorld Sample.noNetworksDoc) 3 =
      Halt (Panicked "index out of range") st' /\
    ipAddress (globals st') = "ecs".
Proof.
  destruct (ecs_index_unguarded (Sample.ecsWorld Sample.noNetworksDoc) 3
              (set_ipAddress "ecs" Sample.flags) Sample.noNetworksDoc
              eq_refl eq_refl eq_refl eq_refl (or_introl eq_refl))
    as [st' [E [_ [I _]]]].
  exists st'. split; [exact E|exact I].
Defined.

(** ** The poll loop *)

Section Loop.

Variable w : World.

Lemma sleep_timer ctx d st :
  quiet w ctx (now st + Z.max 0 d) ->
  SleepWithContext w ctx d st =
    Ret None (at_time (now st + Z.max 0 d) (emit_st (EvSleepCtx ctx d false) st)).
Proof.
  unfold quiet, SleepWithContext. destruct (doneAt w ctx) as [s|]; [|reflexivity].
  intros [H | [H T]].
  - destruct (Z.ltb_spec (Z.max (now st) s) (now st + Z.max 0 d)); [lia|].
    destruct (Z.ltb_spec (now st + Z.max 0 d) (Z.max (now st) s)); [reflexivity|lia].
  - rewrite T.
    destruct (Z.ltb_spec (Z.max (now st) s) (now st + Z.max 0 d)); [lia|].
    destruct (Z.ltb_spec (now st + Z.max 0 d) (Z.max (now st) s)); reflexivity.
Qed.


Lemma quiet_mono ctx t t' : t' <= t -> quiet w ctx t -> quiet w ctx t'.
Proof.
  unfold quiet. destruct (doneAt w ctx) as [s|]; [|trivial].
  intros Hle [H | [H T]]; [left; lia|].
  destruct (Z.eq_dec t' t); [right; split; [lia|exact T] | left; lia].
Qed.

(** The counter and the failed queries: whatever way the loop is left,
    [failures] is the entry value plus the number of failed queries made;
    it is 4 exactly on the fatal exit. *)
Lemma loop_failures fuel ctx id :
  forall f st r, 0 <= f <= 3 ->
  waitForSync_loop w fuel ctx id f st = r ->
  exists k,
    queryCalls (final r) = (queryCalls st + k)%nat /\
    match r with
    | Ret f' _ => f' = f + Z.of_nat (failedQueries w (queryCalls st) k) /\ f' <= 3
    | Halt (Exited c) _ => c = 1 /\ f + Z.of_nat (failedQueries w (queryCalls st) k) = 4
    | Halt OutOfFuel _ => f + Z.of_nat (failedQueries w (queryCalls st) k) <= 3
    | Halt _ _ => False
    end.
Proof.
  induction fuel as [|fuel IH]; intros f st r Hf Hr.
  - subst r. exists 0%nat. simpl. split; lia.
  - cbn [waitForSync_loop] in Hr. unfold bind at 1 in Hr.
    destruct (SleepWithContext_cases w ctx (5 * Go.Second) st) as [E | [s [_ [_ E]]]];
      rewrite E in Hr; clear E.
    + unfold bind at 1 in Hr. unfold r53GetChange in Hr.
      cbn [emit_st at_time queryCalls] in Hr.
      destruct (getChange w (queryCalls st)) as [err|status] eqn:Q.
      * unfold bind at 1, logPrintf, emit in Hr. cbv zeta in Hr.
        destruct (f + 1 >? 3) eqn:G;
          [apply Z.gtb_lt in G | rewrite Z.gtb_ltb in G; apply Z.ltb_ge in G].
        -- subst r. exists 1%nat. simpl. rewrite Q. split; [lia|]. split; [reflexivity|lia].
        -- apply IH in Hr; [|lia]. destruct Hr as [k [Hq Hm]].
           cbn [emit_st at_time queryCalls] in Hq, Hm.
           exists (S k). cbn [failedQueries]. rewrite Q. split; [lia|].
           destruct r as [f' st'|[c| | |] st']; try exact Hm; lia.
      * destruct (String.eqb status "INSYNC").
        -- subst r. exists 1%nat. simpl. rewrite Q. split; lia.
        -- unfold bind at 1, logPrintf, emit in Hr.
           apply IH in Hr; [|lia]. destruct Hr as [k [Hq Hm]].
           cbn [emit_st at_time queryCalls] in Hq, Hm.
           exists (S k). cbn [failedQueries]. rewrite Q. split; [lia|].
           destruct r as [f' st'|[c| | |] st']; try exact Hm; lia.
    + subst r. exists 0%nat. simpl. split; lia.
Qed.

Lemma answers_S from k :
  answers w from (S k) = getChange w from :: answers w (S from) k.
Proof. reflexivity. Qed.

Lemma countErr_cons q qs :
  countErr (q :: qs) = (if isErr q then 1 else 0) + countErr qs.
Proof.
  unfold countErr. cbn [filter]. destruct (isErr q); cbn [List.length]; lia.
Qed.

(** [waitForSync] is its loop, started with [failures = 0], between the
    two bookkeeping events. *)
Lemma waitForSync_unfold fuel ctx id st :
  waitForSync w fuel ctx id st =
    match waitForSync_loop w fuel ctx id 0 (emit_st (EvCall FwaitForSync ctx) st) with
    | Ret _ st' => Ret tt (emit_st (EvReturn FwaitForSync) st')
    | Halt why st' => Halt why st'
    end.
Proof. reflexivity. Qed.

(** Polls that neither confirm nor exhaust the budget: the loop goes
    through them, one interval each. *)
Lemma loop_prefix ctx id :
  forall qs f st fuel,
  answers w (queryCalls st) (List.length qs) = qs ->
  Forall (fun q => inSync q = false) qs ->
  f + countErr qs <= 3 ->
  (qs <> [] -> quiet w ctx (now st + pollInterval * Z.of_nat (List.length qs))) ->
  exists st',
    waitForSync_loop w (List.length qs + fuel) ctx id f st =
      waitForSync_loop w fuel ctx id (f + countErr qs) st' /\
    now st' = now st + pollInterval * Z.of_nat (List.length qs) /\
    queryCalls st' = (queryCalls st + List.length qs)%nat /\
    submitCalls st' = submitCalls st /\
    globals st' = globals st.
Proof.
  induction qs as [|q qs IH]; intros f st fuel HA HC HF HQ.
  - exists st. unfold countErr. cbn [filter List.length Nat.add].
    split; [f_equal; lia | repeat split; lia].
  - cbn [List.length] in *. rewrite answers_S in HA. injection HA as Hq HA.
    inversion HC as [|? ? Hq0 HC']; subst.
    rewrite countErr_cons in HF.
    assert (HQ1 : quiet w ctx (now st + Z.max 0 (5 * Go.Second))).
    { eapply quiet_mono; [|apply HQ; discriminate].
      change (Z.max 0 (5 * Go.Second)) with pollInterval.
      unfold pollInterval, Go.Second. lia. }
    assert (Hc0 : 0 <= countErr qs) by (unfold countErr; lia).
    cbn [Nat.add waitForSync_loop]. unfold bind at 1.
    rewrite (sleep_timer _ _ _ HQ1).
    unfold bind at 1, r53GetChange. cbn [emit_st at_time queryCalls].
    match goal with |- context [waitForSync_loop w fuel ctx id _ _] => idtac end.
    set (st1 := {| globals := _; now := _; submitCalls := _;
                   queryCalls := S (queryCalls st); trace := _ |}).
    destruct (getChange w (queryCalls st)) as [err|status] eqn:Q; cbn [isErr inSync] in *.
    + unfold bind at 1, logPrintf, emit. cbv zeta.
      destruct (f + 1 >? 3) eqn:G; [apply Z.gtb_lt in G; lia|].
      destruct (IH (f + 1) (emit_st (EvLog "Failed getting ChangeSet result: %v" [AStr err]) st1) fuel)
        as [st' [E [Hn [Hqc [Hs Hg]]]]]; try assumption; try lia.
      { intros Hne. eapply quiet_mono; [|apply HQ; discriminate].
        subst st1. cbn [emit_st at_time now].
        change (Z.max 0 (5 * Go.Second)) with pollInterval.
        unfold pollInterval, Go.Second. lia. }
      exists st'. rewrite countErr_cons. cbn [isErr].
      replace (f + (1 + countErr qs)) with (f + 1 + countErr qs) by lia.
      split; [exact E|]. subst st1. cbn [emit_st at_time now queryCalls submitCalls globals] in *.
      change (Z.max 0 (5 * Go.Second)) with pollInterval in Hn.
      repeat split; try assumption; lia.
    + rewrite Hq0. unfold bind at 1, logPrintf, emit.
      destruct (IH f (emit_st (EvLog "Route53 Change not yet propogated (ChangeInfo.Status = %s)..." [AStr status]) st1) fuel)
        as [st' [E [Hn [Hqc [Hs Hg]]]]]; try assumption; try lia.
      { intros Hne. eapply quiet_mono; [|apply HQ; discriminate].
        subst st1. cbn [emit_st at_time now].
        change (Z.max 0 (5 * Go.Second)) with pollInterval.
        unfold pollInterval, Go.Second. lia. }
      exists st'. rewrite countErr_cons. cbn [isErr].
      replace (f + (0 + countErr qs)) with (f + countErr qs) by lia.
      split; [exact E|]. subst st1. cbn [emit_st at_time now queryCalls submitCalls globals] in *.
      change (Z.max 0 (5 * Go.Second)) with pollInterval in Hn.
      repeat split; try assumption; lia.
Qed.

(** A poll answered INSYNC ends the loop by [break]. *)
Lemma loop_insync ctx id fuel f st :
  quiet w ctx (now st + pollInterval) ->
  inSync (getChange w (queryCalls st)) = true ->
  exists st',
    waitForSync_loop w (S fuel) ctx id f st = Ret f st' /\
    now st' = now st + pollInterval /\
    queryCalls st' = S (queryCalls st) /\
    last (map snd (trace st')) (EvDone ctx) = EvLog "Route53 Change Completed" [].
Proof.
  intros HQ HI.
  cbn [waitForSync_loop]. unfold bind at 1.
  rewrite (sleep_timer ctx (5 * Go.Second) st HQ).
  unfold bind at 1, r53GetChange. cbn [emit_st at_time queryCalls].
  destruct (getChange w (queryCalls st)) as [err|status]; cbn [inSync] in HI; [discriminate|].
  rewrite HI. run_monad. eexists. split; [reflexivity|]. simpl.
  repeat split. rewrite map_app. apply last_last.
Qed.


End Loop.

(** C1. Within one [waitForSync] call, started in any state, the process
    is stopped by [log.Fatal] exactly when more than 3 of the [GetChange]
    calls made by this call failed: the failures are counted from zero at
    each call and cumulatively, successful answers in between do not reset
    the count.  With exactly 3 failures among the answers that precede an
    INSYNC answer the call returns normally. *)
Theorem fatal_iff_more_than_three_failures w fuel ctx id st :
  let r := waitForSync w fuel ctx id st in
  let k := (queryCalls (final r) - queryCalls st)%nat in
  (isFatal r = true <-> (3 < failedQueries w (queryCalls st) k)%nat) /\
  (forall qs,
      answers w (queryCalls st) (List.length qs) = qs ->
      Forall (fun q => inSync q = false) qs ->
      countErr qs = 3 ->
      inSync (getChange w (queryCalls st + List.length qs)) = true ->
      quiet w ctx (now st + pollInterval * Z.of_nat (S (List.length qs))) ->
      (List.length qs < fuel)%nat ->
      exists st',
        r = Ret tt st' /\
        now st' = now st + pollInterval * Z.of_nat (S (List.length qs)) /\
        queryCalls st' = S (queryCalls st + List.length qs)).
Proof.
  intros r k. split.
  - subst r k. rewrite waitForSync_unfold.
    destruct (loop_failures w fuel ctx id 0 (emit_st (EvCall FwaitForSync ctx) st) _
                ltac:(lia) eq_refl) as [n [Hq Hm]].
    cbn [emit_st queryCalls] in Hq, Hm.
    destruct (waitForSync_loop w fuel ctx id 0 (emit_st (EvCall FwaitForSync ctx) st))
      as [f' st'|[c| | |] st']; cbn [final emit_st queryCalls isFatal] in *;
      rewrite Hq; replace (queryCalls st + n - queryCalls st)%nat with n by lia;
      try contradiction; split; intros H; try discriminate; try reflexivity; lia.
  - intros qs HA HC HE HI HQ HL. subst r. rewrite waitForSync_unfold.
    set (st1 := emit_st (EvCall FwaitForSync ctx) st).
    assert (HP : 0 < pollInterval) by reflexivity.
    destruct (loop_prefix w ctx id qs 0 st1 (S (fuel - S (List.length qs))))
      as [st2 [E [Hn [Hqc _]]]]; try assumption; try lia.
    { intros _. eapply quiet_mono; [|exact HQ]. subst st1. cbn [emit_st now]. nia. }
    replace (List.length qs + S (fuel - S (List.length qs)))%nat with fuel in E by lia.
    rewrite E.
    destruct (loop_insync w ctx id (fuel - S (List.length qs)) (0 + countErr qs) st2)
      as [st3 [E3 [Hn3 [Hq3 _]]]].
    { eapply quiet_mono; [|exact HQ]. rewrite Hn. subst st1. cbn [emit_st now]. nia. }
    { rewrite Hqc. exact HI. }
    rewrite E3. eexists. split; [reflexivity|].
    cbn [emit_st now queryCalls]. rewrite Hn3, Hq3, Hn, Hqc. subst st1.
    cbn [emit_st now queryCalls]. split; [nia|reflexivity].
Qed.

Lemma fatal_iff_more_than_three_failures_witness :
  let w := Sample.world Sample.flags (SubmitOk "/change/C1")
             [Sample.failed; Sample.pending; Sample.failed; Sample.failed] None in
  exists st',
    waitForSync w 10 Background "/change/C1" initState = Ret tt st' /\
    now st' = 25 * Go.Second.
Proof.
  intros w.
  destruct (fatal_iff_more_than_three_failures w 10 Background "/change/C1" initState)
    as [_ H].
  destruct (H [Sample.failed; Sample.pending; Sample.failed; Sample.failed])
    as [st' [E [Hn _]]].
  - reflexivity.
  - repeat constructor.
  - reflexivity.
  - reflexivity.
  - exact I.
  - simpl; lia.
  - exists st'. split; [exact E|exact Hn].
Defined.

(** ** Cancellation of the wait *)

Lemma answers_length w from k : List.length (answers w from k) = k.
Proof. unfold answers. now rewrite length_map, length_seq. Qed.


(** ** The whole run *)

Lemma run_unfold w fuel :
  run w fuel =
    match configured w with
    | Ret _ st0 => dispatch w fuel (globals st0) st0
    | Halt why st0 => Halt why st0
    end.
Proof.
  unfold run, main, configured, dispatch, bind.
  destruct (configureFromFlags w NotifyContext initState) as [[] st|why st]; [|reflexivity].
  destruct (dumpConfig "dev" st) as [[] st0|why st0]; reflexivity.
Qed.

Ltac cfg_done :=
  split; [repeat constructor|];
  split; [reflexivity|]; split; [reflexivity|]; split; [reflexivity|];
  let E := fresh "E" in let HF := fresh "HF" in
  intros ? ? E HF; try discriminate E;
  injection HF as <-; injection E as <-; repeat split; reflexivity.

(** Up to the dispatch the run only logs: no time passes and Route 53 is
    not called; the mode flags are those of the command line. *)
Lemma configured_spec w :
  Forall (fun te => isLog (snd te)) (trace (final (configured w))) /\
  now (final (configured w)) = 0 /\
  submitCalls (final (configured w)) = 0%nat /\
  queryCalls (final (configured w)) = 0%nat /\
  forall st0 flags, configured w = Ret tt st0 -> flagParse w = Some flags ->
    register (globals st0) = register flags /\
    unRegister (globals st0) = unRegister flags /\
    dnsTTL (globals st0) = dnsTTL flags /\
    loadDefaultConfig w = None.
Proof.
  unfold configured, configureFromFlags, dumpConfig, index.
  destruct (flagParse w) as [flags|]; run_monad; [|cfg_done].
  destruct (loadDefaultConfig w) as [err|]; run_monad; [cfg_done|].
  destruct (String.eqb (ipAddress flags) "public-ipv4"); run_monad.
  { destruct (imdsGetMetadata w); run_monad; cfg_done. }
  destruct (String.eqb (ipAddress flags) "ecs"); run_monad; [|cfg_done].
  destruct (getEcsMetadata w) as [err|doc]; run_monad; [cfg_done|].
  destruct (Networks doc) as [|n ns]; run_monad; [cfg_done|].
  destruct (IPv4Addresses n) as [|a ips]; run_monad; [cfg_done|].
  destruct (String.eqb (DesiredStatus doc) "STOPPED"); run_monad; cfg_done.
Qed.

Lemma keeps_awaitDone w G (P : Event -> Prop) ctx :
  P (EvAwait ctx) -> P (EvDone ctx) -> keeps G P (awaitDone w ctx).
Proof.
  intros HA HD st HG. unfold awaitDone.
  destruct (doneAt w ctx) as [s|]; simpl; (split; [exact HG|]).
  - exists [(now st, EvAwait ctx); (Z.max (now st) s, EvDone ctx)].
    rewrite <- app_assoc. split; [reflexivity|]. repeat constructor; assumption.
  - exists [(now st, EvAwait ctx)]. split; [reflexivity|]. repeat constructor; assumption.
Qed.

Lemma keeps_dispatch w fuel G : keeps G (runEv w G) (dispatch w fuel G).
Proof.
  unfold dispatch.
  destruct (register G); [|destruct (unRegister G)].
  - eapply keeps_weaken; [|apply keeps_setupDNS]. intros e He; now left.
  - eapply keeps_weaken; [|apply keeps_tearDownDNS]. intros e He; right; now left.
  - apply keeps_bind.
    { eapply keeps_weaken; [|apply keeps_setupDNS]. intros e He; now left. }
    intros _. apply keeps_bind.
    { apply keeps_awaitDone; unfold runEv; auto. }
    intros _. eapply keeps_weaken; [|apply keeps_tearDownDNS].
    intros e He; right; right; now left.
Qed.

Lemma submitted_in tr input :
  In input (submitted tr) -> exists t c res, In (t, EvSubmit c input res) tr.
Proof.
  induction tr as [|[t e] tr IH]; simpl; [contradiction|].
  rewrite in_app_iff. intros [H|H].
  - destruct e; simpl in H; try contradiction.
    destruct H as [<-|[]]. do 3 eexists. left; reflexivity.
  - destruct (IH H) as [t' [c [res Hin]]]. do 3 eexists. right; exact Hin.
Qed.

(** Every event of a run is a log line of the start-up or an event of the
    dispatched mode, for the configuration the run ends with. *)
Lemma run_events w fuel :
  forall t e, In (t, e) (trace (final (run w fuel))) ->
    isLog e \/ runEv w (globals (final (run w fuel))) e.
Proof.
  rewrite run_unfold.
  destruct (configured_spec w) as [HL _].
  destruct (configured w) as [[] st0|why st0]; simpl in HL.
  - destruct (keeps_dispatch w fuel (globals st0) st0 eq_refl) as [HG [d [HT HF]]].
    rewrite HG, HT. intros t e Hin. apply in_app_iff in Hin as [Hin|Hin].
    + left. rewrite Forall_forall in HL. exact (HL _ Hin).
    + right. rewrite Forall_forall in HF. exact (HF _ Hin).
  - intros t e Hin. left. simpl in Hin. rewrite Forall_forall in HL. exact (HL _ Hin).
Qed.

(** ** Mode dispatch *)

(** C10. With both -register and -unregister the run is publish-only:
    after the configuration the run is the [setupDNS] call, [tearDownDNS]
    is never called and no Delete is submitted. *)
Theorem register_wins_over_unregister w fuel flags :
  flagParse w = Some flags ->
  register flags = true ->
  unRegister flags = true ->
  (forall t e, In (t, e) (trace (final (run w fuel))) ->
     isTearDownCall e = false /\ isDeleteSubmit e = false) /\
  (forall st0, configured w = Ret tt st0 ->
     run w fuel = setupDNS w fuel NotifyContext st0).
Proof.
  intros HF HR HU.
  destruct (configured_spec w) as [HL [_ [_ [_ HM]]]].
  rewrite run_unfold.
  destruct (configured w) as [[] st0|why st0]; simpl in HL.
  - destruct (HM st0 flags eq_refl HF) as [Hr _]. rewrite HR in Hr.
    unfold dispatch. rewrite Hr. split; [|intros st1 E; injection E as <-; reflexivity].
    destruct (keeps_setupDNS w (globals st0) NotifyContext fuel st0 eq_refl)
      as [_ [d [HT HD]]].
    rewrite HT. intros t e Hin. apply in_app_iff in Hin as [Hin|Hin].
    + rewrite Forall_forall in HL. specialize (HL _ Hin). destruct e; simpl in HL; try contradiction.
      split; reflexivity.
    + rewrite Forall_forall in HD. specialize (HD _ Hin). simpl in HD.
      unfold setupEv, waitEv, loopEv in HD.
      destruct e; simpl; intuition (try discriminate; subst; try reflexivity).
      * match goal with H : EvCall _ _ = EvCall _ _ |- _ => injection H as -> -> end.
        reflexivity.
  - split; [|intros; discriminate].
    intros t e Hin. simpl in Hin. rewrite Forall_forall in HL. specialize (HL _ Hin).
    destruct e; simpl in HL; try contradiction. split; reflexivity.
Qed.

Lemma register_wins_over_unregister_witness :
  exists st0,
    configured registerAndUnregister = Ret tt st0 /\
    run registerAndUnregister 5 = setupDNS registerAndUnregister 5 NotifyContext st0.
Proof.
  destruct (register_wins_over_unregister registerAndUnregister 5
              (Sample.with_mode true true Sample.flags) eq_refl eq_refl eq_refl)
    as [_ H].
  eexists. split; [reflexivity|]. apply H. reflexivity.
Defined.

(** ** The teardown wait and cancellation *)

Lemma afterTearDown_app l1 l2 :
  Forall (fun te => isTearDownCall (snd te) = false) l1 ->
  afterTearDown (l1 ++ l2) = afterTearDown l2.
Proof.
  induction 1 as [|[t e] l1 He _ IH]; [reflexivity|].
  simpl in *. destruct e as [| [] | | | | | | |]; try exact IH. discriminate.
Qed.

Lemma afterTearDown_Forall (P : Event -> Prop) l :
  Forall (fun te => P (snd te)) l -> Forall P (afterTearDown l).
Proof.
  induction 1 as [|[t e] l He Hl IH]; [constructor|].
  simpl. destruct e as [| [] | | | | | | |]; try exact IH.
  apply Forall_map. exact Hl.
Qed.

Lemma tearDownEv_uncancellable w G e :
  tearDownEv w G Background e -> uncancellable e = true.
Proof.
  unfold tearDownEv, waitEv, loopEv.
  destruct e as [| f c | | | c d b | | | |]; simpl; try reflexivity.
  - intros [[[]|[E|E]]|[-> ->]]; [injection E as -> ->|discriminate|]; reflexivity.
  - intros [[[-> [_ Hb]]|[E|E]]|[]]; try discriminate.
    destruct b; [exfalso; apply Hb; reflexivity|reflexivity].
Qed.

Lemma setupEv_not_teardown w G ctx e :
  setupEv w G ctx e -> isTearDownCall e = false.
Proof.
  unfold setupEv, waitEv, loopEv.
  destruct e as [| f c | | | | | | |]; simpl; try reflexivity.
  intros [[[]|[E|E]]|[-> _]]; [injection E as -> ->|discriminate|]; reflexivity.
Qed.

Lemma isLog_not_teardown l :
  Forall (fun te : Z * Event => isLog (snd te)) l ->
  Forall (fun te => isTearDownCall (snd te) = false) l.
Proof.
  apply Forall_impl. intros [t e]; simpl. destruct e; simpl; intros []; reflexivity.
Qed.

(** The full lifecycle, step by step. *)
Lemma dispatch_full w fuel G st0 :
  register G = false -> unRegister G = false ->
  dispatch w fuel G st0 =
    match setupDNS w fuel NotifyContext st0 with
    | Halt why st1 => Halt why st1
    | Ret _ st1 =>
        match signalAt w with
        | None => Halt Blocked (emit_st (EvAwait NotifyContext) st1)
        | Some s =>
            tearDownDNS w fuel Background
              (emit_st (EvDone NotifyContext)
                 (at_time (Z.max (now st1) s) (emit_st (EvAwait NotifyContext) st1)))
        end
    end.
Proof.
  intros HR HU. unfold dispatch. rewrite HR, HU. unfold bind.
  destruct (setupDNS w fuel NotifyContext st0) as [[] st1|why st1]; [|reflexivity].
  unfold awaitDone, doneAt. destruct (signalAt w); reflexivity.
Qed.

(** C2, as amended.  In full lifecycle mode (neither -register nor
    -unregister) everything after the call of [tearDownDNS] runs under
    [context.Background()]: every [waitForSync] entered and every poll
    sleep has that context and none is cancelled. *)
Theorem full_lifecycle_teardown_uncancellable w fuel flags :
  flagParse w = Some flags ->
  register flags = false ->
  unRegister flags = false ->
  teardownWaitUncancellable w fuel.
Proof.
  intros HF HR HU. unfold teardownWaitUncancellable.
  destruct (configured_spec w) as [HL [_ [_ [_ HM]]]].
  rewrite run_unfold.
  destruct (configured w) as [[] st0|why st0]; simpl in HL.
  2:{ simpl. rewrite <- (app_nil_r (trace st0)), afterTearDown_app; [reflexivity|].
      now apply isLog_not_teardown. }
  destruct (HM st0 flags eq_refl HF) as [Hr [Hu _]]. rewrite HR in Hr. rewrite HU in Hu.
  rewrite (dispatch_full w fuel (globals st0) st0 Hr Hu).
  destruct (keeps_setupDNS w (globals st0) NotifyContext fuel st0 eq_refl)
    as [HG1 [d1 [HT1 HD1]]].
  assert (HN1 : Forall (fun te => isTearDownCall (snd te) = false) (trace st0 ++ d1)).
  { apply Forall_app. split; [now apply isLog_not_teardown|].
    eapply Forall_impl; [|exact HD1]. intros te. apply setupEv_not_teardown. }
  destruct (setupDNS w fuel NotifyContext st0) as [[] st1|why st1]; simpl in HG1, HT1.
  2:{ simpl. rewrite HT1, <- (app_nil_r (trace st0 ++ d1)), afterTearDown_app;
        [reflexivity|exact HN1]. }
  destruct (signalAt w) as [s|].
  2:{ simpl. rewrite HT1, afterTearDown_app; [reflexivity|exact HN1]. }
  match goal with |- context [tearDownDNS w fuel Background ?st] => set (st2 := st) end.
  destruct (keeps_tearDownDNS w (globals st0) Background fuel st2 HG1)
    as [_ [d3 [HT3 HD3]]].
  rewrite HT3. subst st2. cbn [emit_st at_time trace]. rewrite HT1.
  rewrite <- !app_assoc, !afterTearDown_app; try assumption;
    try (now apply isLog_not_teardown);
    try (eapply Forall_impl; [|exact HD1]; intros te; apply setupEv_not_teardown);
    try (constructor; [reflexivity|constructor]).
  apply forallb_forall. apply Forall_forall.
  cbn [afterTearDown app snd].
  apply afterTearDown_Forall. eapply Forall_impl; [|exact HD3].
  intros te. apply tearDownEv_uncancellable.
Qed.

Lemma full_lifecycle_teardown_uncancellable_witness :
  teardownWaitUncancellable fullLifecycle 5.
Proof.
  exact (full_lifecycle_teardown_uncancellable fullLifecycle 5 Sample.flags
           eq_refl eq_refl eq_refl).
Defined.

(** C2, as stated, fails in retract-only mode: [main] passes the signal
    context to [tearDownDNS], and a signal during the teardown wait cancels
    it. *)
Lemma retract_only_teardown_cancellable :
  ~ teardownWaitUncancellable retractOnlySignalled 5.
Proof. unfold teardownWaitUncancellable. vm_compute. discriminate. Qed.

(** ** The TTL drain of the teardown *)

Lemma waitForSync_trace w fuel ctx id st :
  exists delta,
    Forall (fun te => loopEv w ctx (snd te)) delta /\
    match waitForSync w fuel ctx id st with
    | Ret _ st2 =>
        trace st2 = trace st ++ (now st, EvCall FwaitForSync ctx) :: delta
                             ++ [(now st2, EvReturn FwaitForSync)]
    | Halt _ st2 =>
        trace st2 = trace st ++ (now st, EvCall FwaitForSync ctx) :: delta
    end.
Proof.
  rewrite waitForSync_unfold.
  destruct (keeps_loop w (globals st) ctx id fuel 0
              (emit_st (EvCall FwaitForSync ctx) st) eq_refl) as [_ [d [HT HD]]].
  exists d. split; [exact HD|].
  destruct (waitForSync_loop w fuel ctx id 0 (emit_st (EvCall FwaitForSync ctx) st))
    as [f st2|why st2]; cbn [final emit_st trace now] in *; rewrite HT;
    rewrite <- !app_assoc; reflexivity.
Qed.

(** [tearDownDNS] either dies on the submission or is its wait followed by
    the TTL sleep. *)
Lemma tearDownDNS_cases w fuel ctx st :
  let g := globals st in
  let head := [(now st, EvCall FtearDownDNS ctx);
               (now st, EvLog "Tearing down Route 53 DNS Name A %s => %s"
                              [AStr (dns g); AStr (ipAddress g)])] in
  (exists err st',
     tearDownDNS w fuel ctx st = Halt (Exited 1) st' /\
     trace st' = trace st ++ head ++
       [(now st, EvSubmit ctx (deleteInput g) (SubmitErr err));
        (now st, EvLog "Failed to delete DNS, exiting: %v" [AStr err])]) \/
  (exists id st1,
     tearDownDNS w fuel ctx st =
       match waitForSync w fuel ctx id st1 with
       | Halt why st2 => Halt why st2
       | Ret _ st2 =>
           Ret tt
             (emit_st (EvReturn FtearDownDNS)
                (emit_st (EvLog "DNS Timeout expiry finished" [])
                   (at_time (now st2 + Z.max 0 (Go.seconds (dnsTTL g)))
                      (emit_st (EvSleep (Go.seconds (dnsTTL g)))
                         (emit_st (EvLog "Waiting for DNS Timeout to expire (%d seconds)"
                                         [AInt (dnsTTL g)]) st2)))))
       end /\
     trace st1 = trace st ++ head ++
       [(now st, EvSubmit ctx (deleteInput g) (SubmitOk id));
        (now st, EvLog "Request sent to Route 53..." [])] /\
     now st1 = now st /\ globals st1 = globals st).
Proof.
  intros g head. subst g head.
  unfold tearDownDNS, bind, logPrintf, logFatalf, emit, getGlobals, halt, timeSleep,
         r53ChangeResourceRecordSets.
  cbn [emit_st globals submitCalls now trace].
  destruct (changeResourceRecordSets w (submitCalls st) (deleteInput (globals st)))
    as [err|id].
  - left. do 2 eexists. split; [reflexivity|].
    cbn [emit_st trace now]. rewrite <- !app_assoc. reflexivity.
  - right. do 2 eexists. split; [reflexivity|].
    cbn [emit_st trace now globals]. rewrite <- !app_assoc. repeat split.
Qed.

Lemma seconds_in_range n :
  0 <= n <= maxDurationSeconds -> Go.seconds n = n * Go.Second.
Proof.
  unfold maxDurationSeconds, Go.seconds, Go.wrap64, Go.Second. intros H.
  rewrite Z.mod_small; lia.
Qed.

(** The TTL sleep.  Whenever the propagation wait of [tearDownDNS]
    completes (at [t]), [time.Sleep] is called with the [Duration]
    [dnsTTL * time.Second] computed in [int64], and [tearDownDNS] returns
    when that sleep is over.  For a TTL from 0 to 9223372036 seconds the
    product does not overflow: the sleep is exactly the TTL and the time
    from the end of the wait to the return equals it. *)
Theorem teardown_drains_ttl w fuel ctx st t :
  In (t, EvReturn FwaitForSync) (added st (tearDownDNS w fuel ctx st)) ->
  let ttl := dnsTTL (globals st) in
  exists st',
    tearDownDNS w fuel ctx st = Ret tt st' /\
    In (t, EvSleep (Go.seconds ttl)) (added st (tearDownDNS w fuel ctx st)) /\
    now st' = t + Z.max 0 (Go.seconds ttl) /\
    (0 <= ttl <= maxDurationSeconds ->
       Go.seconds ttl = ttl * Go.Second /\ now st' - t = ttl * Go.Second).
Proof.
  intros Hin ttl.
  destruct (tearDownDNS_cases w fuel ctx st) as [[err [st' [E HT]]]|[id [st1 [E [HT [Hn Hg]]]]]].
  - exfalso. rewrite E in Hin. erewrite added_app in Hin by exact HT.
    simpl in Hin. intuition discriminate.
  - destruct (waitForSync_trace w fuel ctx id st1) as [d [HD HW]].
    rewrite E in Hin |- *.
    assert (HnoRet : ~ In (t, EvReturn FwaitForSync) d).
    { intros Hd. rewrite Forall_forall in HD. exact (HD _ Hd). }
    destruct (waitForSync w fuel ctx id st1) as [[] st2|why st2].
    + assert (HT2 : trace (emit_st (EvReturn FtearDownDNS)
                (emit_st (EvLog "DNS Timeout expiry finished" [])
                   (at_time (now st2 + Z.max 0 (Go.seconds (dnsTTL (globals st))))
                      (emit_st (EvSleep (Go.seconds (dnsTTL (globals st))))
                         (emit_st (EvLog "Waiting for DNS Timeout to expire (%d seconds)"
                                         [AInt (dnsTTL (globals st))]) st2))))) =
              trace st ++
                ([(now st, EvCall FtearDownDNS ctx);
                  (now st, EvLog "Tearing down Route 53 DNS Name A %s => %s"
                     [AStr (dns (globals st)); AStr (ipAddress (globals st))]);
                  (now st, EvSubmit ctx (deleteInput (globals st)) (SubmitOk id));
                  (now st, EvLog "Request sent to Route 53..." []);
                  (now st1, EvCall FwaitForSync ctx)] ++ d ++
                 [(now st2, EvReturn FwaitForSync);
                  (now st2, EvLog "Waiting for DNS Timeout to expire (%d seconds)"
                     [AInt (dnsTTL (globals st))]);
                  (now st2, EvSleep (Go.seconds (dnsTTL (globals st))));
                  (now st2 + Z.max 0 (Go.seconds (dnsTTL (globals st))),
                   EvLog "DNS Timeout expiry finished" []);
                  (now st2 + Z.max 0 (Go.seconds (dnsTTL (globals st))),
                   EvReturn FtearDownDNS)])).
      { cbn [emit_st at_time trace now]. rewrite HW, HT.
        repeat first [rewrite <- app_assoc | progress cbn [app]]. reflexivity. }
      erewrite added_app in Hin |- * by exact HT2.
      assert (Ht : t = now st2).
      { cbn [app In] in Hin. rewrite in_app_iff in Hin. cbn [In] in Hin.
        intuition (try discriminate; try congruence). }
      subst t. eexists. split; [reflexivity|].
      split; [|split].
      * cbn [app In]. do 5 right. apply in_app_iff. right. cbn [In]. auto.
      * reflexivity.
      * intros Hr. cbn [emit_st at_time now]. subst ttl.
        rewrite (seconds_in_range _ Hr). split; [reflexivity|].
        unfold Go.Second. lia.
    + exfalso. erewrite added_app in Hin.
      2:{ cbn [final]. rewrite HW, HT.
          repeat first [rewrite <- app_assoc | progress cbn [app]]. reflexivity. }
      cbn [app In] in Hin. intuition discriminate.
Qed.

Lemma teardown_drains_ttl_witness :
  let w := Sample.world Sample.flags (SubmitOk "/change/C6") [Sample.pending] None in
  let st := at_time (60 * Go.Second) (final (configured w)) in
  exists st',
    tearDownDNS w 5 Background st = Ret tt st' /\
    now st' = 80 * Go.Second.
Proof.
  intros w st.
  destruct (teardown_drains_ttl w 5 Background st (70 * Go.Second)) as [st' [E [_ [Hn _]]]].
  - vm_compute. repeat (first [left; reflexivity | right]).
  - exists st'. split; [exact E|]. rewrite Hn. reflexivity.
Defined.

(** ** Order of the full lifecycle *)



Lemma setupDNS_returns_on_error w fuel ctx st err :
  changeResourceRecordSets w (submitCalls st) (upsertInput (globals st)) = SubmitErr err ->
  exists st1, setupDNS w fuel ctx st = Ret tt st1.
Proof.
  intros H.
  unfold setupDNS, bind, logPrintf, emit, getGlobals, timeSleep, ret,
         r53ChangeResourceRecordSets.
  cbn [emit_st globals submitCalls now trace].
  destruct (setupDelay (globals st) >? 0);
    cbn [emit_st at_time globals submitCalls now trace];
    rewrite H; eexists; reflexivity.
Qed.





(** ** Sample runs *)

Example four_failures_are_fatal :
  let w := Sample.world Sample.flags (SubmitOk "/change/C1")
             [Sample.failed; Sample.pending; Sample.failed; Sample.failed;
              Sample.pending; Sample.failed] None in
  isFatal (waitForSync w 10 Background "/change/C1" initState) = true /\
  queryCalls (final (waitForSync w 10 Background "/change/C1" initState)) = 6%nat.
Proof. vm_compute. split; reflexivity. Qed.

Example three_failures_then_insync_returns :
  let w := Sample.world Sample.flags (SubmitOk "/change/C1")
             [Sample.failed; Sample.failed; Sample.failed] None in
  returned (waitForSync w 10 Background "/change/C1" initState) = true /\
  now (final (waitForSync w 10 Background "/change/C1" initState)) = 20 * Go.Second.
Proof. vm_compute. split; reflexivity. Qed.

Example pending_for_ever_runs_out_of_fuel :
  let w := Sample.world Sample.flags (SubmitOk "/change/C1")
             (repeat Sample.pending 20) None in
  exists st, waitForSync w 10 Background "/change/C1" initState = Halt OutOfFuel st.
Proof. eexists. vm_compute. reflexivity. Qed.

Example full_lifecycle_requests :
  submitted (trace (final (run fullLifecycle 5))) =
    [upsertInput Sample.flags; deleteInput Sample.flags] /\
  now (final (run fullLifecycle 5)) = 75 * Go.Second.
Proof. vm_compute. split; reflexivity. Qed.

Example no_signal_blocks_for_ever :
  let w := Sample.world Sample.flags (SubmitOk "/change/C1") [] None in
  exists st, run w 5 = Halt Blocked st.
Proof. eexists. vm_compute. reflexivity. Qed.

Example running_task_publishes_first_address :
  exists st,
    run (Sample.ecsWorld Sample.runningDoc) 5 = Ret tt st /\
    ipAddress (globals st) = "10.0.0.5".
Proof. eexists. split; vm_compute; reflexivity. Qed.

Example seconds_overflow :
  Go.seconds 9223372036 = 9223372036 * Go.Second /\
  Go.seconds 9223372037 = -9223372036709551616.
Proof. vm_compute. split; reflexivity. Qed.

Example retract_only_wait_is_cancelled :
  In (EvSleepCtx NotifyContext pollInterval true)
     (afterTearDown (trace (final (run retractOnlySignalled 5)))) /\
  now (final (run retractOnlySignalled 5)) = 17 * Go.Second.
Proof. vm_compute. split; [|reflexivity]. repeat (first [left; reflexivity | right]). Qed.

Example failures_are_counted_per_wait :
  let w := Sample.world Sample.flags (SubmitOk "/change/C1")
             [Sample.failed; Sample.failed; Sample.failed; QueryOk "INSYNC";
              Sample.failed; Sample.failed; Sample.failed; QueryOk "INSYNC"]
             (Some (60 * Go.Second)) in
  returned (run w 10) = true /\ queryCalls (final (run w 10)) = 8%nat.
Proof. vm_compute. split; reflexivity. Qed.

Example huge_ttl_run_ends_with_the_wait :
  returned (run acceptingWorld 5) = true /\
  now (final (run acceptingWorld 5)) = 5 * Go.Second.
Proof. vm_compute. split; reflexivity. Qed.

(** * Further properties of the code *)

(** ** [SleepWithContext] *)

(** X1. [SleepWithContext] always returns, never later than [d] after the
    call and without touching anything but the clock; it returns nil only
    when the whole of [d] has elapsed, and an error only under the signal
    context, at the instant that context is done (at once if it was done
    already); a context done before the timer is due is never slept
    through. *)
Theorem SleepWithContext_spec w ctx d st :
  exists err st',
    SleepWithContext w ctx d st = Ret err st' /\
    now st <= now st' <= now st + Z.max 0 d /\
    globals st' = globals st /\
    submitCalls st' = submitCalls st /\
    queryCalls st' = queryCalls st /\
    (err = None -> now st' = now st + Z.max 0 d) /\
    (err <> None ->
       ctx = NotifyContext /\
       exists s, signalAt w = Some s /\ now st' = Z.max (now st) s) /\
    (forall s, doneAt w ctx = Some s ->
       Z.max (now st) s < now st + Z.max 0 d -> err <> None).
Proof.
  destruct (SleepWithContext_cases w ctx d st) as [E | [s [HS [Hle E]]]].
  - exists None. eexists. split; [exact E|]. cbn [at_time emit_st now globals submitCalls queryCalls].
    repeat split; try lia; try congruence.
    intros s HS Hlt. exfalso. revert E. unfold SleepWithContext. rewrite HS.
    destruct (Z.ltb_spec (Z.max (now st) s) (now st + Z.max 0 d)); [discriminate|lia].
  - exists (Some "context canceled"). eexists. split; [exact E|].
    cbn [at_time emit_st now globals submitCalls queryCalls].
    repeat split; try lia; try congruence.
    + destruct ctx; [discriminate HS|reflexivity].
    + exists s. split; [|reflexivity]. destruct ctx; [discriminate HS|exact HS].
Qed.

(** ** The propagation wait *)

Ltac poll_lia := unfold pollInterval, Go.Second in *; lia.

Section Wait.

Variable w : World.

Lemma quiet_of_never ctx t : doneAt w ctx = None -> quiet w ctx t.
Proof. unfold quiet. now intros ->. Qed.

(** Under a context that is never done, the loop is left by [return] only
    on an INSYNC answer, the first one, one poll interval after each
    query. *)
Lemma loop_uncancelled fuel ctx id :
  doneAt w ctx = None ->
  forall f st f' st',
  waitForSync_loop w fuel ctx id f st = Ret f' st' ->
  exists k,
    queryCalls st' = (queryCalls st + S k)%nat /\
    inSync (getChange w (queryCalls st + k)) = true /\
    (forall i, (i < k)%nat -> inSync (getChange w (queryCalls st + i)) = false) /\
    now st' = now st + pollInterval * Z.of_nat (S k).
Proof.
  intros HD. induction fuel as [|fuel IH]; intros f st f' st' Hr.
  - discriminate Hr.
  - cbn [waitForSync_loop] in Hr. unfold bind at 1 in Hr.
    rewrite (sleep_timer w ctx (5 * Go.Second) st (quiet_of_never _ _ HD)) in Hr.
    unfold bind at 1, r53GetChange in Hr. cbn [emit_st at_time queryCalls] in Hr.
    destruct (getChange w (queryCalls st)) as [err|status] eqn:Q.
    + unfold bind at 1, logPrintf, emit in Hr. cbv zeta in Hr.
      destruct (f + 1 >? 3); [discriminate Hr|].
      apply IH in Hr. destruct Hr as [k [Hq [Hi [Hp Hn]]]].
      cbn [emit_st at_time queryCalls now] in Hq, Hi, Hp, Hn.
      change (Z.max 0 (5 * Go.Second)) with pollInterval in Hn.
      exists (S k). rewrite Hq, Hn.
      replace (queryCalls st + S k)%nat with (S (queryCalls st) + k)%nat by poll_lia.
      split; [poll_lia|]. split; [exact Hi|]. split; [|poll_lia].
      intros [|i] Hlt.
      * rewrite Nat.add_0_r, Q. reflexivity.
      * replace (queryCalls st + S i)%nat with (S (queryCalls st) + i)%nat by poll_lia.
        apply Hp. poll_lia.
    + destruct (String.eqb status "INSYNC") eqn:HS.
      * unfold bind, logPrintf, emit, ret in Hr. injection Hr as _ <-.
        exists 0%nat. cbn [emit_st at_time queryCalls now].
        rewrite Nat.add_0_r, Q. cbn [inSync].
        change (Z.max 0 (5 * Go.Second)) with pollInterval.
        split; [poll_lia|]. split; [exact HS|]. split; [intros i Hi; poll_lia|poll_lia].
      * unfold bind at 1, logPrintf, emit in Hr.
        apply IH in Hr. destruct Hr as [k [Hq [Hi [Hp Hn]]]].
        cbn [emit_st at_time queryCalls now] in Hq, Hi, Hp, Hn.
        change (Z.max 0 (5 * Go.Second)) with pollInterval in Hn.
        exists (S k). rewrite Hq, Hn.
        replace (queryCalls st + S k)%nat with (S (queryCalls st) + k)%nat by poll_lia.
        split; [poll_lia|]. split; [exact Hi|]. split; [|poll_lia].
        intros [|i] Hlt.
        -- rewrite Nat.add_0_r, Q. cbn [inSync]. exact HS.
        -- replace (queryCalls st + S i)%nat with (S (queryCalls st) + i)%nat by poll_lia.
           apply Hp. poll_lia.
Qed.

(** Every query is preceded by a full poll interval; the loop makes at most
    [fuel] queries and stops a run only by [log.Fatal] (or for lack of
    fuel). *)
Lemma loop_paced fuel ctx id :
  forall f st r,
  waitForSync_loop w fuel ctx id f st = r ->
  exists k,
    queryCalls (final r) = (queryCalls st + k)%nat /\
    (k <= fuel)%nat /\
    pollInterval * Z.of_nat k <= now (final r) - now st /\
    (doneAt w ctx = None -> now (final r) - now st = pollInterval * Z.of_nat k) /\
    submitCalls (final r) = submitCalls st /\
    match r with
    | Ret _ _ => True
    | Halt why _ => fatalOrFuel why
    end.
Proof.
  assert (HP : Z.max 0 (5 * Go.Second) = pollInterval) by reflexivity.
  assert (HP0 : 0 < pollInterval) by reflexivity.
  induction fuel as [|fuel IH]; intros f st r Hr.
  - subst r. exists 0%nat. cbn. repeat split; try lia. now right.
  - cbn [waitForSync_loop] in Hr. unfold bind at 1 in Hr.
    destruct (SleepWithContext_cases w ctx (5 * Go.Second) st) as [E | [s [HS [Hle E]]]];
      rewrite E in Hr; clear E.
    + unfold bind at 1, r53GetChange in Hr.
      cbn [emit_st at_time queryCalls] in Hr.
      destruct (getChange w (queryCalls st)) as [err|status].
      * unfold bind at 1, logPrintf, emit in Hr. cbv zeta in Hr.
        destruct (f + 1 >? 3).
        -- subst r. exists 1%nat. cbn [final]. unfold logFatalf, bind, emit, halt.
           cbn [final emit_st at_time queryCalls submitCalls now]. rewrite HP.
           repeat split; try lia. now left.
        -- apply IH in Hr. destruct Hr as [k [Hq [Hk [Hn [He [Hs Hm]]]]]].
           cbn [emit_st at_time queryCalls submitCalls now] in Hq, Hn, He, Hs.
           rewrite HP in Hn, He.
           exists (S k). rewrite Hq, Hs. repeat split; try lia.
           ++ intros HD. specialize (He HD). lia.
           ++ exact Hm.
      * destruct (String.eqb status "INSYNC").
        -- subst r. exists 1%nat. unfold bind, logPrintf, emit, ret.
           cbn [final emit_st at_time queryCalls submitCalls now]. rewrite HP.
           repeat split; lia.
        -- unfold bind at 1, logPrintf, emit in Hr.
           apply IH in Hr. destruct Hr as [k [Hq [Hk [Hn [He [Hs Hm]]]]]].
           cbn [emit_st at_time queryCalls submitCalls now] in Hq, Hn, He, Hs.
           rewrite HP in Hn, He.
           exists (S k). rewrite Hq, Hs. repeat split; try lia.
           ++ intros HD. specialize (He HD). lia.
           ++ exact Hm.
    + subst r. exists 0%nat. unfold bind, logPrintf, emit, ret.
      cbn [final emit_st at_time queryCalls submitCalls now].
      repeat split; try lia. intros HD. congruence.
Qed.

End Wait.

Lemma waitForSync_uncancelled w fuel ctx id st st' :
  doneAt w ctx = None ->
  waitForSync w fuel ctx id st = Ret tt st' ->
  exists k,
    queryCalls st' = (queryCalls st + S k)%nat /\
    inSync (getChange w (queryCalls st + k)) = true /\
    (forall i, (i < k)%nat -> inSync (getChange w (queryCalls st + i)) = false) /\
    now st' = now st + pollInterval * Z.of_nat (S k) /\
    submitCalls st' = submitCalls st.
Proof.
  intros HD E. rewrite waitForSync_unfold in E.
  destruct (waitForSync_loop w fuel ctx id 0 (emit_st (EvCall FwaitForSync ctx) st))
    as [f st2|why st2] eqn:EL; [|discriminate E].
  injection E as <-.
  destruct (loop_uncancelled w fuel ctx id HD _ _ _ _ EL) as [k [H1 [H2 [H3 H4]]]].
  destruct (loop_paced w fuel ctx id _ _ _ EL) as [_ [_ [_ [_ [_ [HS _]]]]]].
  exists k. cbn [final emit_st submitCalls] in HS. repeat split; assumption.
Qed.

(** X2. No false confirmation: under a context that is never done (such as
    [context.Background()]), [waitForSync] returns only after Route 53
    answered INSYNC, and it returns at the first such answer, one poll
    interval after each query made. *)
Theorem waitForSync_returns_only_insync w fuel ctx id st st' :
  doneAt w ctx = None ->
  waitForSync w fuel ctx id st = Ret tt st' ->
  exists k,
    queryCalls st' = (queryCalls st + S k)%nat /\
    inSync (getChange w (queryCalls st + k)) = true /\
    (forall i, (i < k)%nat -> inSync (getChange w (queryCalls st + i)) = false) /\
    now st' = now st + pollInterval * Z.of_nat (S k).
Proof.
  intros HD E.
  destruct (waitForSync_uncancelled w fuel ctx id st st' HD E) as [k [H1 [H2 [H3 [H4 _]]]]].
  exists k. repeat split; assumption.
Qed.

Lemma waitForSync_returns_only_insync_witness :
  let w := Sample.world Sample.flags (SubmitOk "/change/C1")
             [Sample.pending; Sample.failed] None in
  exists k, inSync (getChange w k) = true /\
            forall i, (i < k)%nat -> inSync (getChange w i) = false.
Proof.
  intros w.
  assert (E : exists st', waitForSync w 5 Background "/change/C1" initState = Ret tt st')
    by (eexists; vm_compute; reflexivity).
  destruct E as [st' E].
  destruct (waitForSync_returns_only_insync w 5 Background "/change/C1" initState st'
              eq_refl E) as [k [_ [H1 [H2 _]]]].
  exists k. split; [exact H1|exact H2].
Defined.

(** X3. Pacing: whatever way [waitForSync] ends, each [GetChange] it made
    was preceded by a full poll interval of 5 s (under a context that is
    never done the elapsed time is exactly 5 s per query), it made no more
    queries than loop iterations, submitted nothing, and it stops the
    process only by [log.Fatal], status 1: it never panics and never
    blocks. *)
Theorem waitForSync_paced w fuel ctx id st :
  let r := waitForSync w fuel ctx id st in
  exists k,
    queryCalls (final r) = (queryCalls st + k)%nat /\
    (k <= fuel)%nat /\
    pollInterval * Z.of_nat k <= now (final r) - now st /\
    (doneAt w ctx = None -> now (final r) - now st = pollInterval * Z.of_nat k) /\
    submitCalls (final r) = submitCalls st /\
    match r with
    | Ret _ _ => True
    | Halt why _ => fatalOrFuel why
    end.
Proof.
  intros r. subst r. rewrite waitForSync_unfold.
  destruct (loop_paced w fuel ctx id 0 (emit_st (EvCall FwaitForSync ctx) st) _ eq_refl)
    as [k H].
  exists k.
  destruct (waitForSync_loop w fuel ctx id 0 (emit_st (EvCall FwaitForSync ctx) st))
    as [f st2|why st2]; cbn [final emit_st queryCalls submitCalls now] in *; exact H.
Qed.

(** X4. No overall time-out: under a context that is never done, as long as
    Route 53 answers without INSYNC and at most 3 queries fail, the loop
    keeps polling, for any number of iterations. *)
Theorem waitForSync_no_timeout w fuel ctx id st :
  doneAt w ctx = None ->
  Forall (fun q => inSync q = false) (answers w (queryCalls st) fuel) ->
  countErr (answers w (queryCalls st) fuel) <= 3 ->
  exists st',
    waitForSync w fuel ctx id st = Halt OutOfFuel st' /\
    queryCalls st' = (queryCalls st + fuel)%nat /\
    now st' = now st + pollInterval * Z.of_nat fuel.
Proof.
  intros HD HF HC. rewrite waitForSync_unfold.
  set (st1 := emit_st (EvCall FwaitForSync ctx) st).
  destruct (loop_prefix w ctx id (answers w (queryCalls st) fuel) 0 st1 0)
    as [st2 [E [Hn [Hq _]]]]; try assumption; try lia.
  { rewrite answers_length. reflexivity. }
  { intros _. apply quiet_of_never. exact HD. }
  rewrite answers_length, Nat.add_0_r in E. rewrite answers_length in Hn, Hq.
  rewrite E. cbn [waitForSync_loop]. unfold halt.
  exists st2. split; [reflexivity|]. split; [exact Hq|exact Hn].
Qed.

Lemma waitForSync_no_timeout_witness :
  let w := Sample.world Sample.flags (SubmitOk "/change/C1")
             (repeat Sample.pending 50) None in
  exists st',
    waitForSync w 40 Background "/change/C1" initState = Halt OutOfFuel st' /\
    now st' = 200 * Go.Second.
Proof.
  intros w.
  destruct (waitForSync_no_timeout w 40 Background "/change/C1" initState eq_refl)
    as [st' [E [_ Hn]]].
  - vm_compute. repeat constructor.
  - vm_compute. discriminate.
  - exists st'. split; [exact E|exact Hn].
Defined.

(** ** Configuration and address resolution *)

(** How [configureFromFlags(ctx); dumpConfig()] can end. *)
Lemma configured_cases w :
  match configured w with
  | Ret _ st0 =>
      exists flags,
        flagParse w = Some flags /\
        loadDefaultConfig w = None /\
        globals st0 = set_ipAddress (ipAddress (globals st0)) flags /\
        ((ipAddress flags = "public-ipv4" /\
          imdsGetMetadata w = ImdsContent (ipAddress (globals st0))) \/
         (ipAddress flags = "ecs" /\
          exists doc n ns ips,
            getEcsMetadata w = inr doc /\
            Networks doc = n :: ns /\
            IPv4Addresses n = ipAddress (globals st0) :: ips /\
            DesiredStatus doc <> "STOPPED") \/
         (ipAddress flags <> "public-ipv4" /\ ipAddress flags <> "ecs" /\
          ipAddress (globals st0) = ipAddress flags))
  | Halt why st0 =>
      (why = Exited 2 /\ flagParse w = None) \/
      why = Exited 1 \/
      (why = Panicked "index out of range" /\
       exists flags doc,
         flagParse w = Some flags /\ ipAddress flags = "ecs" /\
         getEcsMetadata w = inr doc /\
         (Networks doc = [] \/
          exists n ns, Networks doc = n :: ns /\ IPv4Addresses n = []))
  end.
Proof.
  unfold configured, configureFromFlags, dumpConfig, index.
  destruct (flagParse w) as [flags|]; run_monad; [|left; split; reflexivity].
  destruct (loadDefaultConfig w) as [err|]; run_monad; [right; left; reflexivity|].
  destruct (String.eqb_spec (ipAddress flags) "public-ipv4") as [HP|HP]; run_monad.
  { destruct (imdsGetMetadata w) as [err|err|body]; run_monad;
      try (right; left; reflexivity).
    exists flags. repeat split. left. split; [exact HP|reflexivity]. }
  destruct (String.eqb_spec (ipAddress flags) "ecs") as [HE|HE]; run_monad.
  2:{ exists flags. repeat split; [destruct flags; reflexivity|].
      right. right. repeat split; assumption. }
  destruct (getEcsMetadata w) as [err|doc]; run_monad; [right; left; reflexivity|].
  destruct (Networks doc) as [|n ns] eqn:HN; run_monad.
  { right. right. split; [reflexivity|]. exists flags, doc. repeat split; auto. }
  destruct (IPv4Addresses n) as [|a ips] eqn:HA; run_monad.
  { right. right. split; [reflexivity|]. exists flags, doc. repeat split; auto.
    right. exists n, ns. split; [first [reflexivity|assumption]|exact HA]. }
  destruct (String.eqb_spec (DesiredStatus doc) "STOPPED") as [HS|HS]; run_monad.
  { right. left. reflexivity. }
  exists flags. repeat split. right. left. split; [exact HE|].
  exists doc, n, ns, ips. repeat split; assumption.
Qed.

(** X5. Address resolution is sound: whenever [configureFromFlags] returns,
    the AWS configuration was loaded, no package variable but [ipAddress]
    differs from the parsed flags, and [ipAddress] is the body served by the
    instance metadata service (selector "public-ipv4"), or the first address
    of the first network of an ECS metadata document that is not STOPPED
    (selector "ecs"), or the flag's own value otherwise. *)
Theorem resolved_address_sound w st0 :
  configured w = Ret tt st0 ->
  exists flags,
    flagParse w = Some flags /\
    loadDefaultConfig w = None /\
    globals st0 = set_ipAddress (ipAddress (globals st0)) flags /\
    ((ipAddress flags = "public-ipv4" /\
      imdsGetMetadata w = ImdsContent (ipAddress (globals st0))) \/
     (ipAddress flags = "ecs" /\
      exists doc n ns ips,
        getEcsMetadata w = inr doc /\
        Networks doc = n :: ns /\
        IPv4Addresses n = ipAddress (globals st0) :: ips /\
        DesiredStatus doc <> "STOPPED") \/
     (ipAddress flags <> "public-ipv4" /\ ipAddress flags <> "ecs" /\
      ipAddress (globals st0) = ipAddress flags)).
Proof.
  intros E. pose proof (configured_cases w) as H. rewrite E in H. exact H.
Qed.

Lemma resolved_address_sound_witness :
  exists st0,
    configured (Sample.ecsWorld Sample.runningDoc) = Ret tt st0 /\
    ipAddress (globals st0) = "10.0.0.5".
Proof.
  assert (E : exists st0, configured (Sample.ecsWorld Sample.runningDoc) = Ret tt st0)
    by (eexists; vm_compute; reflexivity).
  destruct E as [st0 E]. exists st0. split; [exact E|].
  destruct (resolved_address_sound _ _ E) as [flags [HF [_ [_ H]]]].
  injection HF as <-.
  destruct H as [[H _]|[[_ [doc [n [ns [ips [HD [HN [HA _]]]]]]]]|[_ [H _]]]].
  - discriminate H.
  - injection HD as <-. injection HN as <- _. injection HA as -> _. reflexivity.
  - exfalso. apply H. reflexivity.
Defined.

(** X6. A literal address is taken as it is, the empty string included:
    with a selector other than "public-ipv4" and "ecs", the configuration
    succeeds as soon as the AWS configuration loads, whatever the metadata
    services would answer, and leaves all package variables equal to the
    flags. *)
Theorem literal_address_unvalidated w flags :
  flagParse w = Some flags ->
  loadDefaultConfig w = None ->
  ipAddress flags <> "public-ipv4" ->
  ipAddress flags <> "ecs" ->
  exists st0,
    configured w = Ret tt st0 /\
    globals st0 = flags /\
    now st0 = 0 /\
    Forall (fun te => isLog (snd te)) (trace st0).
Proof.
  intros HF HC HP HE.
  unfold configured, configureFromFlags, dumpConfig. rewrite HF, HC. run_monad.
  destruct (String.eqb_spec (ipAddress flags) "public-ipv4"); [contradiction|].
  destruct (String.eqb_spec (ipAddress flags) "ecs"); [contradiction|].
  run_monad. eexists. split; [reflexivity|]. simpl.
  repeat split. repeat constructor.
Qed.

Lemma literal_address_unvalidated_witness :
  let w := Sample.world (set_ipAddress EmptyString Sample.flags)
             (SubmitOk "/change/C1") [] None in
  exists st0, configured w = Ret tt st0 /\ ipAddress (globals st0) = EmptyString.
Proof.
  intros w.
  destruct (literal_address_unvalidated w (set_ipAddress EmptyString Sample.flags)
              eq_refl eq_refl)
    as [st0 [E [HG _]]]; try discriminate.
  exists st0. split; [exact E|]. rewrite HG. reflexivity.
Defined.

(** ** [setupDNS] and [tearDownDNS], step by step *)

Lemma submitted_app l1 l2 : submitted (l1 ++ l2) = submitted l1 ++ submitted l2.
Proof. unfold submitted. apply flat_map_app. Qed.

Lemma submitted_none l :
  Forall (fun te => isSubmit (snd te) = false) l -> submitted l = [].
Proof.
  induction 1 as [|[t e] l He _ IH]; [reflexivity|].
  simpl in *. destruct e; try discriminate; exact IH.
Qed.

Lemma loopEv_not_submit w ctx l :
  Forall (fun te : Z * Event => loopEv w ctx (snd te)) l ->
  Forall (fun te => isSubmit (snd te) = false) l.
Proof.
  apply Forall_impl. intros [t e]; simpl. destruct e; simpl; intros H;
    try reflexivity; contradiction.
Qed.

Lemma isLog_not_submit l :
  Forall (fun te : Z * Event => isLog (snd te)) l ->
  Forall (fun te => isSubmit (snd te) = false) l.
Proof.
  apply Forall_impl. intros [t e]; simpl. destruct e; simpl; intros H;
    try reflexivity; contradiction.
Qed.

Lemma setupPrologue_not_submit ctx st :
  Forall (fun te => isSubmit (snd te) = false) (setupPrologue ctx st).
Proof.
  unfold setupPrologue. destruct (setupDelay (globals st) >? 0); repeat constructor.
Qed.

(** [setupDNS] is its prologue, one submission, and then either the log
    line of the failure or the wait. *)
Lemma setupDNS_steps w fuel ctx st :
  let res := changeResourceRecordSets w (submitCalls st) (upsertInput (globals st)) in
  exists st1,
    trace st1 = trace st ++ setupPrologue ctx st ++
                [(upsertTime st, EvSubmit ctx (upsertInput (globals st)) res)] /\
    now st1 = upsertTime st /\
    globals st1 = globals st /\
    submitCalls st1 = S (submitCalls st) /\
    queryCalls st1 = queryCalls st /\
    setupDNS w fuel ctx st =
      match res with
      | SubmitErr err =>
          Ret tt (emit_st (EvReturn FsetupDNS)
                    (emit_st (EvLog "Failed to create DNS: %v" [AStr err]) st1))
      | SubmitOk cid =>
          match waitForSync w fuel ctx cid
                  (emit_st (EvLog "Request sent to Route 53..." []) st1) with
          | Ret _ st2 => Ret tt (emit_st (EvReturn FsetupDNS) st2)
          | Halt why st2 => Halt why st2
          end
      end.
Proof.
  intros res. subst res.
  exists (final (r53ChangeResourceRecordSets w ctx (upsertInput (globals st))
            (final ((if setupDelay (globals st) >? 0 then
                       logPrintf "Waiting %d seconds before setting up DNS (SETUPDELAY)"
                                 [AInt (setupDelay (globals st))] >>
                       timeSleep (Go.seconds (setupDelay (globals st))) >>
                       logPrintf "Finished waiting" []
                     else ret tt)
                      (emit_st (EvLog "Setting up Route 53 DNS Name A %s => %s"
                                  [AStr (dns (globals st)); AStr (ipAddress (globals st))])
                         (emit_st (EvCall FsetupDNS ctx) st)))))).
  unfold setupDNS, setupPrologue, upsertTime, bind, logPrintf, emit, getGlobals, timeSleep,
         ret, r53ChangeResourceRecordSets.
  cbn [emit_st globals submitCalls now trace].
  destruct (setupDelay (globals st) >? 0);
    cbn [final emit_st at_time globals submitCalls queryCalls now trace];
    (split; [repeat first [rewrite <- app_assoc | progress cbn [app]]; reflexivity|]);
    repeat (split; [reflexivity|]);
    destruct (changeResourceRecordSets w (submitCalls st) (upsertInput (globals st)));
    reflexivity.
Qed.

(** [tearDownDNS] is its entry, one submission, and then either
    [log.Fatalf] or the wait and the TTL sleep. *)
Lemma tearDownDNS_steps w fuel ctx st :
  let g := globals st in
  let res := changeResourceRecordSets w (submitCalls st) (deleteInput g) in
  exists st1,
    trace st1 = trace st ++
                [(now st, EvCall FtearDownDNS ctx);
                 (now st, EvLog "Tearing down Route 53 DNS Name A %s => %s"
                                [AStr (dns g); AStr (ipAddress g)]);
                 (now st, EvSubmit ctx (deleteInput g) res)] /\
    now st1 = now st /\
    globals st1 = g /\
    submitCalls st1 = S (submitCalls st) /\
    queryCalls st1 = queryCalls st /\
    tearDownDNS w fuel ctx st =
      match res with
      | SubmitErr err =>
          Halt (Exited 1) (emit_st (EvLog "Failed to delete DNS, exiting: %v" [AStr err]) st1)
      | SubmitOk cid =>
          match waitForSync w fuel ctx cid
                  (emit_st (EvLog "Request sent to Route 53..." []) st1) with
          | Halt why st2 => Halt why st2
          | Ret _ st2 =>
              Ret tt
                (emit_st (EvReturn FtearDownDNS)
                   (emit_st (EvLog "DNS Timeout expiry finished" [])
                      (at_time (now st2 + Z.max 0 (Go.seconds (dnsTTL g)))
                         (emit_st (EvSleep (Go.seconds (dnsTTL g)))
                            (emit_st (EvLog "Waiting for DNS Timeout to expire (%d seconds)"
                                            [AInt (dnsTTL g)]) st2)))))
          end
      end.
Proof.
  intros g res. subst g res.
  exists (final (r53ChangeResourceRecordSets w ctx (deleteInput (globals st))
            (emit_st (EvLog "Tearing down Route 53 DNS Name A %s => %s"
                        [AStr (dns (globals st)); AStr (ipAddress (globals st))])
               (emit_st (EvCall FtearDownDNS ctx) st)))).
  unfold tearDownDNS, bind, logPrintf, logFatalf, emit, getGlobals, halt, timeSleep,
         r53ChangeResourceRecordSets.
  cbn [final emit_st at_time globals submitCalls queryCalls now trace].
  split; [repeat first [rewrite <- app_assoc | progress cbn [app]]; reflexivity|].
  repeat (split; [reflexivity|]).
  destruct (changeResourceRecordSets w (submitCalls st) (deleteInput (globals st)));
    reflexivity.
Qed.

Lemma waitForSync_frame w fuel ctx id st :
  globals (final (waitForSync w fuel ctx id st)) = globals st /\
  submitCalls (final (waitForSync w fuel ctx id st)) = submitCalls st /\
  now st <= now (final (waitForSync w fuel ctx id st)) /\
  haltsWith fatalOrFuel (waitForSync w fuel ctx id).
Proof.
  split; [apply (keeps_waitForSync w (globals st) ctx id fuel st eq_refl)|].
  assert (H : forall st0,
             submitCalls (final (waitForSync w fuel ctx id st0)) = submitCalls st0 /\
             now st0 <= now (final (waitForSync w fuel ctx id st0)) /\
             forall why st', waitForSync w fuel ctx id st0 = Halt why st' -> fatalOrFuel why).
  { intros st0. rewrite waitForSync_unfold.
    destruct (loop_paced w fuel ctx id 0 (emit_st (EvCall FwaitForSync ctx) st0) _ eq_refl)
      as [k [_ [_ [Hn [_ [Hs Hm]]]]]].
    assert (HP : 0 < pollInterval) by reflexivity.
    destruct (waitForSync_loop w fuel ctx id 0 (emit_st (EvCall FwaitForSync ctx) st0))
      as [f st2|why st2]; cbn [final emit_st submitCalls now] in *.
    - split; [exact Hs|]. split; [nia|]. intros; discriminate.
    - split; [exact Hs|]. split; [nia|]. intros why' st' E. injection E as <- _. exact Hm. }
  destruct (H st) as [H1 [H2 _]]. split; [exact H1|]. split; [exact H2|].
  intros st0 why st' E. exact (proj2 (proj2 (H st0)) why st' E).
Qed.

Lemma waitForSync_not_submit w fuel ctx id st :
  exists d,
    trace (final (waitForSync w fuel ctx id st)) = trace st ++ d /\
    Forall (fun te => isSubmit (snd te) = false) d.
Proof.
  destruct (waitForSync_trace w fuel ctx id st) as [d [HD HW]].
  pose proof (loopEv_not_submit w ctx d HD) as HN.
  destruct (waitForSync w fuel ctx id st) as [[] st2|why st2]; cbn [final]; rewrite HW.
  - eexists. split; [reflexivity|]. constructor; [reflexivity|].
    apply Forall_app. split; [exact HN|repeat constructor].
  - eexists. split; [reflexivity|]. constructor; [reflexivity|exact HN].
Qed.

(** All outcomes of [setupDNS]: exactly one submission, the Upsert, made at
    [upsertTime]; the package variables are not written. *)
Lemma setupDNS_trace w fuel ctx st :
  exists rest,
    trace (final (setupDNS w fuel ctx st)) =
      trace st ++ setupPrologue ctx st ++
      (upsertTime st,
       EvSubmit ctx (upsertInput (globals st))
         (changeResourceRecordSets w (submitCalls st) (upsertInput (globals st)))) :: rest /\
    Forall (fun te => isSubmit (snd te) = false) rest /\
    globals (final (setupDNS w fuel ctx st)) = globals st /\
    submitCalls (final (setupDNS w fuel ctx st)) = S (submitCalls st) /\
    upsertTime st <= now (final (setupDNS w fuel ctx st)) /\
    haltsWith fatalOrFuel (setupDNS w fuel ctx).
Proof.
  assert (H : forall st0, exists rest,
    trace (final (setupDNS w fuel ctx st0)) =
      trace st0 ++ setupPrologue ctx st0 ++
      (upsertTime st0,
       EvSubmit ctx (upsertInput (globals st0))
         (changeResourceRecordSets w (submitCalls st0) (upsertInput (globals st0)))) :: rest /\
    Forall (fun te => isSubmit (snd te) = false) rest /\
    globals (final (setupDNS w fuel ctx st0)) = globals st0 /\
    submitCalls (final (setupDNS w fuel ctx st0)) = S (submitCalls st0) /\
    upsertTime st0 <= now (final (setupDNS w fuel ctx st0)) /\
    forall why st', setupDNS w fuel ctx st0 = Halt why st' -> fatalOrFuel why).
  { intros st0.
    destruct (setupDNS_steps w fuel ctx st0) as [st1 [HT [Hn [Hg [Hs [_ E]]]]]].
    rewrite E.
    destruct (changeResourceRecordSets w (submitCalls st0) (upsertInput (globals st0)))
      as [err|cid].
    - eexists. cbn [final emit_st trace globals submitCalls now]. rewrite HT.
      split; [repeat first [rewrite <- app_assoc | progress cbn [app]]; reflexivity|].
      split; [repeat constructor|]. repeat split; try assumption; try lia;
      try (intros; discriminate).
    - set (st1' := emit_st (EvLog "Request sent to Route 53..." []) st1).
      destruct (waitForSync_not_submit w fuel ctx cid st1') as [d [HW HD]].
      destruct (waitForSync_frame w fuel ctx cid st1') as [HG [HS [HN HH]]].
      destruct (waitForSync w fuel ctx cid st1') as [[] st2|why st2] eqn:EW;
        cbn [final emit_st trace globals submitCalls now] in *;
        rewrite HW; subst st1'; cbn [emit_st trace globals submitCalls now] in *; rewrite HT.
      + eexists.
        split; [repeat first [rewrite <- app_assoc | progress cbn [app]]; reflexivity|].
        split; [constructor; [reflexivity|]; apply Forall_app; split;
                  [exact HD|repeat constructor]|].
        repeat split; try congruence; try lia; try (intros; discriminate).
      + eexists.
        split; [repeat first [rewrite <- app_assoc | progress cbn [app]]; reflexivity|].
        split; [constructor; [reflexivity|exact HD]|].
        repeat split; try congruence; try lia.
        intros why' st' E'. injection E' as <- _. exact (HH _ _ _ EW). }
  destruct (H st) as [rest [H1 [H2 [H3 [H4 [H5 _]]]]]].
  exists rest. repeat split; try assumption.
  intros st0 why st' E. destruct (H st0) as [_ [_ [_ [_ [_ [_ HH]]]]]]. exact (HH why st' E).
Qed.

(** All outcomes of [tearDownDNS]: exactly one submission, the Delete, made
    on entry; the package variables are not written. *)
Lemma tearDownDNS_trace w fuel ctx st :
  exists rest,
    trace (final (tearDownDNS w fuel ctx st)) =
      trace st ++
      [(now st, EvCall FtearDownDNS ctx);
       (now st, EvLog "Tearing down Route 53 DNS Name A %s => %s"
                      [AStr (dns (globals st)); AStr (ipAddress (globals st))]);
       (now st, EvSubmit ctx (deleteInput (globals st))
                  (changeResourceRecordSets w (submitCalls st) (deleteInput (globals st))))]
      ++ rest /\
    Forall (fun te => isSubmit (snd te) = false) rest /\
    globals (final (tearDownDNS w fuel ctx st)) = globals st /\
    submitCalls (final (tearDownDNS w fuel ctx st)) = S (submitCalls st) /\
    haltsWith fatalOrFuel (tearDownDNS w fuel ctx).
Proof.
  assert (H : forall st0, exists rest,
    trace (final (tearDownDNS w fuel ctx st0)) =
      trace st0 ++
      [(now st0, EvCall FtearDownDNS ctx);
       (now st0, EvLog "Tearing down Route 53 DNS Name A %s => %s"
                      [AStr (dns (globals st0)); AStr (ipAddress (globals st0))]);
       (now st0, EvSubmit ctx (deleteInput (globals st0))
                  (changeResourceRecordSets w (submitCalls st0) (deleteInput (globals st0))))]
      ++ rest /\
    Forall (fun te => isSubmit (snd te) = false) rest /\
    globals (final (tearDownDNS w fuel ctx st0)) = globals st0 /\
    submitCalls (final (tearDownDNS w fuel ctx st0)) = S (submitCalls st0) /\
    forall why st', tearDownDNS w fuel ctx st0 = Halt why st' -> fatalOrFuel why).
  { intros st0.
    destruct (tearDownDNS_steps w fuel ctx st0) as [st1 [HT [Hn [Hg [Hs [_ E]]]]]].
    rewrite E.
    destruct (changeResourceRecordSets w (submitCalls st0) (deleteInput (globals st0)))
      as [err|cid].
    - eexists. cbn [final emit_st trace globals submitCalls now]. rewrite HT.
      split; [rewrite <- app_assoc; reflexivity|].
      split; [repeat constructor|]. repeat split; try assumption.
      intros why st' E'. injection E' as <- _. now left.
    - set (st1' := emit_st (EvLog "Request sent to Route 53..." []) st1).
      destruct (waitForSync_not_submit w fuel ctx cid st1') as [d [HW HD]].
      destruct (waitForSync_frame w fuel ctx cid st1') as [HG [HS [HN HH]]].
      destruct (waitForSync w fuel ctx cid st1') as [[] st2|why st2] eqn:EW;
        cbn [final emit_st at_time trace globals submitCalls now] in *;
        rewrite HW; subst st1'; cbn [emit_st trace globals submitCalls now] in *; rewrite HT.
      + eexists.
        split; [repeat first [rewrite <- app_assoc | progress cbn [app]]; reflexivity|].
        split; [constructor; [reflexivity|]; apply Forall_app; split;
                  [exact HD|repeat constructor]|].
        repeat split; try congruence; try (intros; discriminate).
      + eexists.
        split; [repeat first [rewrite <- app_assoc | progress cbn [app]]; reflexivity|].
        split; [constructor; [reflexivity|exact HD]|].
        repeat split; try congruence.
        intros why' st' E'. injection E' as <- _. exact (HH _ _ _ EW). }
  destruct (H st) as [rest [H1 [H2 [H3 [H4 _]]]]].
  exists rest. repeat split; try assumption.
  intros st0 why st' E. destruct (H st0) as [_ [_ [_ [_ [_ HH]]]]]. exact (HH why st' E).
Qed.

(** ** The set-up delay *)

(** X7. Whatever the outcome and whatever the context (the delay is a plain
    [time.Sleep], blind to cancellation), [setupDNS] submits exactly one
    request, the Upsert, and it does so at [upsertTime]: at once when
    [setupDelay] is zero or negative, and [setupDelay] seconds after its
    entry when that many seconds fit a [time.Duration]. *)
Theorem setupDNS_submits_after_delay w fuel ctx st :
  let g := globals st in
  let out := added st (setupDNS w fuel ctx st) in
  In (upsertTime st,
      EvSubmit ctx (upsertInput g)
        (changeResourceRecordSets w (submitCalls st) (upsertInput g))) out /\
  (forall t e, In (t, e) out -> isSubmit e = true -> t = upsertTime st) /\
  submitted out = [upsertInput g] /\
  (setupDelay g <= 0 -> upsertTime st = now st) /\
  (0 < setupDelay g <= maxDurationSeconds ->
     upsertTime st = now st + setupDelay g * Go.Second).
Proof.
  intros g out. subst g out.
  destruct (setupDNS_trace w fuel ctx st) as [rest [HT [HR _]]].
  rewrite (added_app _ _ _ _ HT).
  pose proof (setupPrologue_not_submit ctx st) as HP.
  split; [apply in_app_iff; right; left; reflexivity|].
  split; [|split; [|split]].
  - intros t e Hin He. apply in_app_iff in Hin as [Hin|[Hin|Hin]].
    + rewrite Forall_forall in HP. specialize (HP _ Hin). simpl in HP. congruence.
    + injection Hin as <- _. reflexivity.
    + rewrite Forall_forall in HR. specialize (HR _ Hin). simpl in HR. congruence.
  - rewrite submitted_app, (submitted_none _ HP). cbn [app].
    change ((?a, ?b) :: rest) with ([(a, b)] ++ rest).
    unfold submitted at 1. cbn [flat_map snd app].
    fold (submitted rest). rewrite (submitted_none _ HR). reflexivity.
  - intros H. unfold upsertTime.
    destruct (Z.gtb_spec (setupDelay (globals st)) 0); [lia|reflexivity].
  - intros H. unfold upsertTime.
    destruct (Z.gtb_spec (setupDelay (globals st)) 0); [|lia].
    rewrite seconds_in_range by lia. unfold Go.Second. lia.
Qed.

Lemma setupDNS_submits_after_delay_witness :
  let w := Sample.world Sample.flags (SubmitOk "/change/C1") [] (Some 0) in
  let st := final (configured (Sample.world flagDefaults (SubmitOk "/change/C1") [] None)) in
  upsertTime st = 10 * Go.Second.
Proof.
  intros w st.
  destruct (setupDNS_submits_after_delay w 5 NotifyContext st) as [_ [_ [_ [_ H]]]].
  rewrite H; [reflexivity|]. vm_compute. split; [reflexivity|discriminate].
Defined.

(** ** Submissions of a run *)

Lemma setupDNS_submitted w fuel ctx st :
  submitted (trace (final (setupDNS w fuel ctx st))) =
    submitted (trace st) ++ [upsertInput (globals st)].
Proof.
  destruct (setupDNS_trace w fuel ctx st) as [rest [HT [HR _]]].
  rewrite HT, !submitted_app, (submitted_none _ (setupPrologue_not_submit ctx st)).
  change ((?a, ?b) :: rest) with ([(a, b)] ++ rest).
  rewrite submitted_app, (submitted_none _ HR). reflexivity.
Qed.

Lemma tearDownDNS_submitted w fuel ctx st :
  submitted (trace (final (tearDownDNS w fuel ctx st))) =
    submitted (trace st) ++ [deleteInput (globals st)].
Proof.
  destruct (tearDownDNS_trace w fuel ctx st) as [rest [HT [HR _]]].
  rewrite HT, !submitted_app, (submitted_none _ HR). reflexivity.
Qed.

Lemma modeOf_cases g :
  (modeOf g = PublishOnly /\ register g = true) \/
  (modeOf g = RetractOnly /\ register g = false /\ unRegister g = true) \/
  (modeOf g = FullLifecycle /\ register g = false /\ unRegister g = false).
Proof.
  unfold modeOf. destruct (register g), (unRegister g); auto.
Qed.

(** X8. What a run asks of Route 53, by mode: nothing when the
    configuration fails; in publish-only mode exactly one request, the
    Upsert; in retract-only mode exactly one, the Delete; in full lifecycle
    mode the Upsert alone when the run does not return, or the Upsert
    followed by the Delete, which needs a signal.  A failed submission is
    never repeated. *)
Theorem run_submissions w fuel :
  let reqs := submitted (trace (final (run w fuel))) in
  (forall why st, configured w = Halt why st -> reqs = []) /\
  (forall st0, configured w = Ret tt st0 ->
     let g := globals st0 in
     match modeOf g with
     | PublishOnly => reqs = [upsertInput g]
     | RetractOnly => reqs = [deleteInput g]
     | FullLifecycle =>
         (reqs = [upsertInput g] /\ returned (run w fuel) = false) \/
         (reqs = [upsertInput g; deleteInput g] /\ exists s, signalAt w = Some s)
     end).
Proof.
  intros reqs. subst reqs. rewrite run_unfold.
  destruct (configured_spec w) as [HL _].
  split.
  - intros why st E. rewrite E in HL |- *. cbn [final] in *.
    apply submitted_none, isLog_not_submit, HL.
  - intros st0 E g. subst g. rewrite E in HL |- *. cbn [final] in HL.
    pose proof (submitted_none _ (isLog_not_submit _ HL)) as H0.
    destruct (modeOf_cases (globals st0)) as [[-> Hr]|[[-> [Hr Hu]]|[-> [Hr Hu]]]].
    + unfold dispatch. rewrite Hr, setupDNS_submitted, H0. reflexivity.
    + unfold dispatch. rewrite Hr, Hu, tearDownDNS_submitted, H0. reflexivity.
    + rewrite (dispatch_full w fuel (globals st0) st0 Hr Hu).
      pose proof (setupDNS_submitted w fuel NotifyContext st0) as HS. rewrite H0 in HS.
      destruct (setupDNS_trace w fuel NotifyContext st0) as [_ [_ [_ [HG _]]]].
      destruct (setupDNS w fuel NotifyContext st0) as [[] st1|why st1];
        cbn [final] in HS, HG.
      2:{ left. split; [exact HS|reflexivity]. }
      destruct (signalAt w) as [s|].
      * right. split; [|exists s; reflexivity].
        rewrite tearDownDNS_submitted. cbn [emit_st at_time trace globals].
        rewrite !submitted_app, HS, HG. reflexivity.
      * left. split; [|reflexivity].
        cbn [final emit_st trace]. rewrite submitted_app, HS. reflexivity.
Qed.

Lemma run_submissions_witness :
  submitted (trace (final (run fullLifecycle 5))) =
    [upsertInput Sample.flags; deleteInput Sample.flags].
Proof.
  destruct (run_submissions fullLifecycle 5) as [_ H].
  specialize (H (final (configured fullLifecycle)) eq_refl).
  cbv zeta in H. change (modeOf (globals (final (configured fullLifecycle))))
    with FullLifecycle in H. cbv iota in H.
  destruct H as [[_ H]|[H _]]; [vm_compute in H; discriminate H|exact H].
Defined.

(** ** The teardown under [context.Background()] *)

(** X9. Under a context that is never done, [tearDownDNS] returns only
    when Route 53 accepted the Delete and then answered INSYNC, at the first
    such answer, and after the TTL sleep: the return comes one poll interval
    per query made plus the TTL [Duration] after the entry. *)
Theorem tearDownDNS_returns_only_confirmed w fuel ctx st st' :
  doneAt w ctx = None ->
  tearDownDNS w fuel ctx st = Ret tt st' ->
  exists cid k,
    changeResourceRecordSets w (submitCalls st) (deleteInput (globals st)) = SubmitOk cid /\
    inSync (getChange w (queryCalls st + k)) = true /\
    (forall i, (i < k)%nat -> inSync (getChange w (queryCalls st + i)) = false) /\
    queryCalls st' = (queryCalls st + S k)%nat /\
    now st' = now st + pollInterval * Z.of_nat (S k)
              + Z.max 0 (Go.seconds (dnsTTL (globals st))).
Proof.
  intros HD E.
  destruct (tearDownDNS_steps w fuel ctx st) as [st1 [_ [Hn [_ [_ [Hq E1]]]]]].
  rewrite E1 in E.
  destruct (changeResourceRecordSets w (submitCalls st) (deleteInput (globals st)))
    as [err|cid]; [discriminate E|].
  destruct (waitForSync w fuel ctx cid (emit_st (EvLog "Request sent to Route 53..." []) st1))
    as [[] st2|why st2] eqn:EW; [|discriminate E].
  injection E as <-.
  destruct (waitForSync_uncancelled w fuel ctx cid _ _ HD EW) as [k [H1 [H2 [H3 [H4 _]]]]].
  cbn [emit_st queryCalls now] in H1, H2, H3, H4. rewrite Hq in H1, H2, H3. rewrite Hn in H4.
  exists cid, k. cbn [emit_st at_time queryCalls now].
  repeat split; try assumption. rewrite H4. reflexivity.
Qed.

Lemma tearDownDNS_returns_only_confirmed_witness :
  let w := Sample.world Sample.flags (SubmitOk "/change/C1") [Sample.pending] None in
  exists st', tearDownDNS w 5 Background (final (configured w)) = Ret tt st' /\
              now st' = 20 * Go.Second.
Proof.
  intros w.
  assert (E : exists st', tearDownDNS w 5 Background (final (configured w)) = Ret tt st')
    by (eexists; vm_compute; reflexivity).
  destruct E as [st' E]. exists st'. split; [exact E|].
  destruct (tearDownDNS_returns_only_confirmed w 5 Background _ _ eq_refl E)
    as [cid [k [_ [Hi [Hp [_ Hn]]]]]].
  assert (Hk : k = 1%nat).
  { destruct k as [|[|k]]; [discriminate Hi|reflexivity|].
    specialize (Hp 1%nat ltac:(lia)). discriminate Hp. }
  subst k. rewrite Hn. reflexivity.
Defined.

(** ** When a full lifecycle run ends *)

(** X10. In full lifecycle mode a run returns only if a signal came, and
    then no earlier than one poll interval plus the TTL [Duration] after the
    signal; without a signal it never returns. *)
Theorem full_lifecycle_returns_after_signal w fuel flags st :
  flagParse w = Some flags ->
  register flags = false ->
  unRegister flags = false ->
  run w fuel = Ret tt st ->
  exists s,
    signalAt w = Some s /\
    s + pollInterval + Z.max 0 (Go.seconds (dnsTTL flags)) <= now st.
Proof.
  intros HF HR HU E. rewrite run_unfold in E.
  destruct (configured_spec w) as [_ [_ [_ [_ HM]]]].
  destruct (configured w) as [[] st0|why st0]; [|discriminate E].
  destruct (HM st0 flags eq_refl HF) as [Hr [Hu [Ht _]]]. rewrite HR in Hr. rewrite HU in Hu.
  rewrite (dispatch_full w fuel (globals st0) st0 Hr Hu) in E.
  destruct (setupDNS_trace w fuel NotifyContext st0) as [_ [_ [_ [HG _]]]].
  destruct (setupDNS w fuel NotifyContext st0) as [[] st1|why st1]; [|discriminate E].
  cbn [final] in HG.
  destruct (signalAt w) as [s|]; [|discriminate E].
  exists s. split; [reflexivity|].
  match type of E with tearDownDNS w fuel Background ?st2 = _ =>
    destruct (tearDownDNS_steps w fuel Background st2) as [st3 [_ [Hn [Hg3 [_ [_ E1]]]]]];
    rewrite E1 in E;
    destruct (changeResourceRecordSets w (submitCalls st2) (deleteInput (globals st2)))
      as [err|cid]; [discriminate E|]
  end.
  destruct (waitForSync w fuel Background cid
              (emit_st (EvLog "Request sent to Route 53..." []) st3))
    as [[] st4|why st4] eqn:EW; [|discriminate E].
  injection E as <-.
  destruct (waitForSync_uncancelled w fuel Background cid _ _ eq_refl EW)
    as [k [_ [_ [_ [H4 _]]]]].
  cbn [emit_st at_time now globals] in *. rewrite H4, Hn, HG, Ht.
  assert (HP : 0 < pollInterval) by reflexivity. nia.
Qed.

Lemma full_lifecycle_returns_after_signal_witness :
  exists s, signalAt fullLifecycle = Some s /\
            s + pollInterval + Z.max 0 (Go.seconds 10) <= 75 * Go.Second.
Proof.
  assert (E : exists st, run fullLifecycle 5 = Ret tt st /\ now st = 75 * Go.Second)
    by (eexists; vm_compute; split; reflexivity).
  destruct E as [st [E Hn]].
  destruct (full_lifecycle_returns_after_signal fullLifecycle 5 Sample.flags st
              eq_refl eq_refl eq_refl E) as [s [HS H]].
  exists s. split; [exact HS|]. rewrite <- Hn. exact H.
Defined.

(** ** [setupDNS] against the test double *)

(** X11. Against [mockRoute53], whatever [wantErrs] holds, [setupDNS] under
    [context.Background()] returns normally after a single submission:
    without polling when the mock returns an error for that call, and after
    one poll, 5 s later, otherwise. *)
Theorem setupDNS_against_mock wantErrs base fuel st :
  (0 < fuel)%nat ->
  exists st',
    setupDNS (mockRoute53 wantErrs base) fuel Background st = Ret tt st' /\
    submitCalls st' = S (submitCalls st) /\
    match nth_error wantErrs (submitCalls st) with
    | Some (Some _) =>
        queryCalls st' = queryCalls st /\ now st' = upsertTime st
    | _ =>
        queryCalls st' = S (queryCalls st) /\ now st' = upsertTime st + pollInterval
    end.
Proof.
  intros HF. destruct fuel as [|fuel]; [lia|].
  destruct (setupDNS_steps (mockRoute53 wantErrs base) (S fuel) Background st)
    as [st1 [_ [Hn [_ [Hs [Hq E]]]]]].
  rewrite E. cbn [mockRoute53 changeResourceRecordSets].
  assert (HW : exists st2,
             waitForSync (mockRoute53 wantErrs base) (S fuel) Background "mockChangeId"
               (emit_st (EvLog "Request sent to Route 53..." []) st1) = Ret tt st2 /\
             submitCalls st2 = S (submitCalls st) /\
             queryCalls st2 = S (queryCalls st) /\
             now st2 = upsertTime st + pollInterval).
  { rewrite waitForSync_unfold.
    destruct (loop_insync (mockRoute53 wantErrs base) Background "mockChangeId" fuel 0
                (emit_st (EvCall FwaitForSync Background)
                   (emit_st (EvLog "Request sent to Route 53..." []) st1)))
      as [st2 [EL [Hn2 [Hq2 _]]]]; [exact I|reflexivity|].
    destruct (loop_paced (mockRoute53 wantErrs base) (S fuel) Background "mockChangeId" 0
                _ _ EL) as [_ [_ [_ [_ [_ [Hs2 _]]]]]].
    rewrite EL. eexists. split; [reflexivity|].
    cbn [final emit_st submitCalls queryCalls now] in *.
    rewrite Hs2, Hq2, Hn2. repeat split; congruence. }
  destruct (nth_error wantErrs (submitCalls st)) as [[err|]|].
  - eexists. split; [reflexivity|]. cbn [emit_st submitCalls queryCalls now].
    repeat split; assumption.
  - destruct HW as [st2 [EW [H1 [H2 H3]]]]. rewrite EW.
    eexists. split; [reflexivity|]. cbn [emit_st submitCalls queryCalls now].
    repeat split; assumption.
  - destruct HW as [st2 [EW [H1 [H2 H3]]]]. rewrite EW.
    eexists. split; [reflexivity|]. cbn [emit_st submitCalls queryCalls now].
    repeat split; assumption.
Qed.

Lemma setupDNS_against_mock_witness :
  let w := mockRoute53 [Some "InvalidChangeBatch"] fullLifecycle in
  exists st', setupDNS w 1 Background initState = Ret tt st' /\
              queryCalls st' = 0%nat.
Proof.
  intros w.
  destruct (setupDNS_against_mock [Some "InvalidChangeBatch"] fullLifecycle 1 initState)
    as [st' [E [_ H]]]; [lia|].
  exists st'. split; [exact E|]. exact (proj1 H).
Defined.

(** ** Package variables *)

(** X12. After [configureFromFlags] nothing writes a package variable:
    [waitForSync], [setupDNS] and [tearDownDNS] leave them as they found
    them whatever their outcome, and a run ends, however it ends, with the
    variables it was configured with. *)
Theorem package_variables_frozen w fuel :
  (forall ctx id st, globals (final (waitForSync w fuel ctx id st)) = globals st) /\
  (forall ctx st, globals (final (setupDNS w fuel ctx st)) = globals st) /\
  (forall ctx st, globals (final (tearDownDNS w fuel ctx st)) = globals st) /\
  (forall st0, configured w = Ret tt st0 ->
     globals (final (run w fuel)) = globals st0).
Proof.
  split; [|split; [|split]].
  - intros ctx id st. apply (keeps_waitForSync w (globals st) ctx id fuel st eq_refl).
  - intros ctx st. apply (keeps_setupDNS w (globals st) ctx fuel st eq_refl).
  - intros ctx st. apply (keeps_tearDownDNS w (globals st) ctx fuel st eq_refl).
  - intros st0 E. rewrite run_unfold, E.
    apply (keeps_dispatch w fuel (globals st0) st0 eq_refl).
Qed.

Lemma package_variables_frozen_witness :
  globals (final (run fullLifecycle 5)) = Sample.flags.
Proof.
  destruct (package_variables_frozen fullLifecycle 5) as [_ [_ [_ H]]].
  exact (H (final (configured fullLifecycle)) eq_refl).
Defined.

(** ** How a run can stop *)

(** X13. A run that does not return stops in one of these ways only: exit
    status 2 when the flags are rejected; exit status 1 ([log.Fatal]); the
    index panic, and then the selector is "ecs" and the metadata document
    has no first address; waiting for a signal that never comes, in full
    lifecycle mode; or, in the model, a wait still polling when its budget
    ends. *)
Theorem run_stop_reasons w fuel why st :
  run w fuel = Halt why st ->
  match why with
  | Exited c => c = 1 \/ (c = 2 /\ flagParse w = None)
  | Panicked msg =>
      msg = "index out of range" /\
      exists flags doc,
        flagParse w = Some flags /\ ipAddress flags = "ecs" /\
        getEcsMetadata w = inr doc /\
        (Networks doc = [] \/
         exists n ns, Networks doc = n :: ns /\ IPv4Addresses n = [])
  | Blocked =>
      signalAt w = None /\
      exists flags, flagParse w = Some flags /\ modeOf flags = FullLifecycle
  | OutOfFuel => True
  end.
Proof.
  intros E. rewrite run_unfold in E.
  pose proof (configured_cases w) as HC.
  destruct (configured w) as [[] st0|why0 st0].
  2:{ injection E as <- _.
      destruct HC as [[-> H]|[->|[-> H]]]; auto. }
  destruct HC as [flags [HF [_ [HG _]]]].
  assert (HFO : forall why', fatalOrFuel why' ->
            match why' with
            | Exited c => c = 1 \/ (c = 2 /\ flagParse w = None)
            | Panicked msg =>
                msg = "index out of range" /\
                exists flags doc,
                  flagParse w = Some flags /\ ipAddress flags = "ecs" /\
                  getEcsMetadata w = inr doc /\
                  (Networks doc = [] \/
                   exists n ns, Networks doc = n :: ns /\ IPv4Addresses n = [])
            | Blocked =>
                signalAt w = None /\
                exists flags, flagParse w = Some flags /\ modeOf flags = FullLifecycle
            | OutOfFuel => True
            end).
  { intros why' [-> | ->]; [now left|exact I]. }
  destruct (modeOf_cases (globals st0)) as [[HM Hr]|[[HM [Hr Hu]]|[HM [Hr Hu]]]].
  - unfold dispatch in E. rewrite Hr in E. apply HFO.
    destruct (setupDNS_trace w fuel NotifyContext st0) as [_ [_ [_ [_ [_ [_ HH]]]]]].
    exact (HH _ _ _ E).
  - unfold dispatch in E. rewrite Hr, Hu in E. apply HFO.
    destruct (tearDownDNS_trace w fuel NotifyContext st0) as [_ [_ [_ [_ [_ HH]]]]].
    exact (HH _ _ _ E).
  - rewrite (dispatch_full w fuel (globals st0) st0 Hr Hu) in E.
    destruct (setupDNS_trace w fuel NotifyContext st0) as [_ [_ [_ [_ [_ [_ HH]]]]]].
    destruct (setupDNS w fuel NotifyContext st0) as [[] st1|why1 st1] eqn:ES.
    2:{ injection E as <- _. apply HFO. exact (HH _ _ _ ES). }
    destruct (signalAt w) as [s|].
    + apply HFO.
      match type of E with tearDownDNS w fuel Background ?st2 = _ =>
        destruct (tearDownDNS_trace w fuel Background st2) as [_ [_ [_ [_ [_ HT]]]]]
      end.
      exact (HT _ _ _ E).
    + injection E as <- _. split; [reflexivity|].
      exists flags. split; [exact HF|].
      unfold modeOf in *. rewrite HG in Hr, Hu. cbn [set_ipAddress register unRegister] in Hr, Hu.
      rewrite Hr, Hu. reflexivity.
Qed.

Lemma run_stop_reasons_witness :
  signalAt (Sample.world Sample.flags (SubmitOk "/change/C1") [] None) = None.
Proof.
  assert (E : exists st, run (Sample.world Sample.flags (SubmitOk "/change/C1") [] None) 5
                         = Halt Blocked st)
    by (eexists; vm_compute; reflexivity).
  destruct E as [st E].
  exact (proj1 (run_stop_reasons _ 5 Blocked st E)).
Defined.

(** ** Publish-only mode and a rejected request *)

(** X14. In publish-only mode a rejected Upsert does not fail the run:
    [main] returns normally (exit status 0) once the failure is logged,
    having made that one submission and no query. *)
Theorem publish_only_returns_on_rejection w fuel st0 err :
  configured w = Ret tt st0 ->
  register (globals st0) = true ->
  changeResourceRecordSets w 0 (upsertInput (globals st0)) = SubmitErr err ->
  exists st,
    run w fuel = Ret tt st /\
    submitted (trace st) = [upsertInput (globals st0)] /\
    queryCalls st = 0%nat /\
    now st = upsertTime st0 /\
    In (EvLog "Failed to create DNS: %v" [AStr err]) (map snd (trace st)).
Proof.
  intros EC HR HE.
  destruct (configured_spec w) as [_ [_ [HS [HQ _]]]]. rewrite EC in HS, HQ. cbn [final] in HS, HQ.
  pose proof (setupDNS_submitted w fuel NotifyContext st0) as HSub.
  destruct (configured_spec w) as [HL _]. rewrite EC in HL. cbn [final] in HL.
  rewrite (submitted_none _ (isLog_not_submit _ HL)) in HSub.
  rewrite run_unfold, EC. unfold dispatch. rewrite HR.
  destruct (setupDNS_steps w fuel NotifyContext st0) as [st1 [_ [Hn [_ [_ [Hq E]]]]]].
  rewrite HS, HE in E. rewrite E in HSub |- *.
  eexists. split; [reflexivity|]. cbn [final emit_st trace queryCalls now] in *.
  split; [exact HSub|]. split; [congruence|]. split; [exact Hn|].
  rewrite !map_app. apply in_app_iff. left. apply in_app_iff. right. left. reflexivity.
Qed.

Lemma publish_only_returns_on_rejection_witness :
  exists st, run registerRejected 5 = Ret tt st /\ queryCalls st = 0%nat.
Proof.
  destruct (publish_only_returns_on_rejection registerRejected 5
              (final (configured registerRejected)) "InvalidChangeBatch"
              eq_refl eq_refl eq_refl) as [st [E [_ [Q _]]]].
  exists st. split; [exact E|exact Q].
Defined.

(** ** Cancellation of the publish wait *)






Example signal_during_query_run :
  exists st,
    waitForSync signalDuringQuery 10 NotifyContext "/change/C8" initState
      = Halt (Exited 1) st /\
    now st = 20 * Go.Second /\
    queryCalls st = 4%nat /\
    honoursContext signalDuringQuery (trace st) = true.
Proof. eexists. vm_compute. repeat split. Qed.

(** ** The full lifecycle *)






(** ** The record of the change requests *)

Lemma setupDNS_added_submitted w fuel ctx st :
  submitted (added st (setupDNS w fuel ctx st)) = [upsertInput (globals st)].
Proof.
  destruct (setupDNS_trace w fuel ctx st) as [rest [HT [HR _]]].
  rewrite (added_app _ _ _ _ HT), submitted_app,
    (submitted_none _ (setupPrologue_not_submit ctx st)).
  change ((?a, ?b) :: rest) with ([(a, b)] ++ rest).
  rewrite submitted_app, (submitted_none _ HR). reflexivity.
Qed.

Lemma tearDownDNS_added_submitted w fuel ctx st :
  submitted (added st (tearDownDNS w fuel ctx st)) = [deleteInput (globals st)].
Proof.
  destruct (tearDownDNS_trace w fuel ctx st) as [rest [HT [HR _]]].
  rewrite (added_app _ _ _ _ HT), submitted_app, (submitted_none _ HR). reflexivity.
Qed.

(** C7. The change requests of the program.  (a) [setupDNS] submits one
    request, the input it builds from the package variables, and
    [tearDownDNS] one, its own input, whatever Route 53 answers and under
    any context.  (b) The first is the Upsert and the second the Delete of
    one and the same record: name, zone, address and TTL are the package
    variables, the type is A, the weight 100 and the set identifier is the
    address.  (c) In a run the requests are, in order, those of the mode:
    the Upsert (-register), the Delete (-unregister), the Upsert and, when
    the teardown is reached, the Delete (full lifecycle), all for the record
    of the package variables as the configuration left them; a full
    lifecycle run that returns has submitted both. *)
Theorem change_requests_share_record w fuel :
  (forall ctx st,
      submitted (added st (setupDNS w fuel ctx st)) = [upsertInput (globals st)] /\
      submitted (added st (tearDownDNS w fuel ctx st)) = [deleteInput (globals st)]) /\
  (forall g,
      changeRequest (upsertInput g) = Some (ChangeActionUpsert, recordSpec g) /\
      changeRequest (deleteInput g) = Some (ChangeActionDelete, recordSpec g) /\
      name (recordSpec g) = dns g /\
      zoneID (recordSpec g) = hostedZone g /\
      address (recordSpec g) = ipAddress g /\
      ttlSeconds (recordSpec g) = dnsTTL g /\
      recordType (recordSpec g) = "A" /\
      weight (recordSpec g) = 100 /\
      setIdentifier (recordSpec g) = address (recordSpec g)) /\
  (forall st0,
      configured w = Ret tt st0 ->
      let g := globals st0 in
      let reqs := map changeRequest (submitted (trace (final (run w fuel)))) in
      match modeOf g with
      | PublishOnly => reqs = [Some (ChangeActionUpsert, recordSpec g)]
      | RetractOnly => reqs = [Some (ChangeActionDelete, recordSpec g)]
      | FullLifecycle =>
          (reqs = [Some (ChangeActionUpsert, recordSpec g)] /\
           returned (run w fuel) = false) \/
          reqs = [Some (ChangeActionUpsert, recordSpec g);
                  Some (ChangeActionDelete, recordSpec g)]
      end).
Proof.
  split; [|split].
  - intros ctx st. split.
    + apply setupDNS_added_submitted.
    + apply tearDownDNS_added_submitted.
  - intros g. repeat split.
  - intros st0 E g reqs. subst g reqs. rewrite run_unfold.
    destruct (configured_spec w) as [HL _].
    rewrite E in HL |- *. cbn [final] in HL.
    pose proof (submitted_none _ (isLog_not_submit _ HL)) as H0.
    destruct (modeOf_cases (globals st0)) as [[-> Hr]|[[-> [Hr Hu]]|[-> [Hr Hu]]]].
    + unfold dispatch. rewrite Hr, setupDNS_submitted, H0. reflexivity.
    + unfold dispatch. rewrite Hr, Hu, tearDownDNS_submitted, H0. reflexivity.
    + rewrite (dispatch_full w fuel (globals st0) st0 Hr Hu).
      pose proof (setupDNS_submitted w fuel NotifyContext st0) as HS. rewrite H0 in HS.
      destruct (setupDNS_trace w fuel NotifyContext st0) as [_ [_ [_ [HG _]]]].
      destruct (setupDNS w fuel NotifyContext st0) as [[] st1|why st1];
        cbn [final] in HS, HG.
      2:{ left. cbn [final]. rewrite HS. split; reflexivity. }
      destruct (signalAt w) as [s|].
      * right. rewrite tearDownDNS_submitted. cbn [emit_st at_time trace globals].
        rewrite !submitted_app, HS, HG. reflexivity.
      * left. cbn [final emit_st trace]. rewrite submitted_app, HS.
        split; reflexivity.
Qed.

Lemma change_requests_share_record_witness :
  map changeRequest (submitted (trace (final (run fullLifecycle 5)))) =
    [Some (ChangeActionUpsert, recordSpec Sample.flags);
     Some (ChangeActionDelete, recordSpec Sample.flags)] /\
  setIdentifier (recordSpec Sample.flags) = ipAddress Sample.flags.
Proof.
  destruct (change_requests_share_record fullLifecycle 5) as [_ [HB H]].
  specialize (H (final (configured fullLifecycle)) eq_refl).
  cbv zeta in H. change (modeOf (globals (final (configured fullLifecycle))))
    with FullLifecycle in H. cbv iota in H.
  split.
  - destruct H as [[_ H]|H]; [vm_compute in H; discriminate H|exact H].
  - destruct (HB Sample.flags) as [_ [_ [_ [_ [HA [_ [_ [_ HS]]]]]]]].
    rewrite HS. exact HA.
Defined.

(** ** The TTL drain at the edge of [time.Duration] *)

(** Up to the largest TTL whose [Duration] fits [int64], negative TTLs
    included, the teardown drains the TTL. *)
Lemma drainsTTL_up_to_max w fuel ctx st :
  dnsTTL (globals st) <= maxDurationSeconds ->
  drainsTTL w fuel ctx st.
Proof.
  intros Hle t Hin.
  destruct (teardown_drains_ttl w fuel ctx st t Hin) as [st' [E [_ [Hn Hr]]]].
  exists st'. split; [exact E|].
  destruct (Z.le_gt_cases 0 (dnsTTL (globals st))) as [H0|H0].
  - destruct (Hr (conj H0 Hle)) as [_ ->]. lia.
  - rewrite Hn. unfold Go.Second. lia.
Qed.


(** ** A signal before the submission *)

(** X15. In full lifecycle mode, with an SDK that fails a call made under a
    context that is done: a signal that comes before [setupDNS] submits
    (during the set-up delay, say) does not stop the call, which is made
    when the delay is over and fails; [setupDNS] logs the failure and
    returns, and [tearDownDNS] submits the Delete at that same instant,
    under [context.Background()], for a record that was never published.
    The run asks for the Upsert and the Delete and for nothing else, and
    every [GetChange] of the run is made under [context.Background()]. *)
Theorem signal_before_submission w fuel st0 s :
  configured w = Ret tt st0 ->
  modeOf (globals st0) = FullLifecycle ->
  signalAt w = Some s ->
  s <= upsertTime st0 ->
  let tr := trace (final (run w fuel)) in
  honoursContext w tr = true ->
  exists err,
    changeResourceRecordSets w 0 (upsertInput (globals st0)) = SubmitErr err /\
    In (upsertTime st0,
        EvSubmit NotifyContext (upsertInput (globals st0)) (SubmitErr err)) tr /\
    In (upsertTime st0, EvLog "Failed to create DNS: %v" [AStr err]) tr /\
    In (upsertTime st0, EvCall FtearDownDNS Background) tr /\
    In (upsertTime st0,
        EvSubmit Background (deleteInput (globals st0))
          (changeResourceRecordSets w 1 (deleteInput (globals st0)))) tr /\
    submitted tr = [upsertInput (globals st0); deleteInput (globals st0)] /\
    forall t c i r, In (t, EvQuery c i r) tr -> c = Background.
Proof.
  intros EC HM HS Hle tr HH. subst tr.
  destruct (modeOf_cases (globals st0)) as [[H _]|[[H _]|[_ [Hr Hu]]]]; try congruence.
  destruct (configured_spec w) as [HL [_ [HSC _]]]. rewrite EC in HL, HSC.
  cbn [final] in HL, HSC.
  rewrite run_unfold, EC, (dispatch_full w fuel (globals st0) st0 Hr Hu) in HH |- *.
  destruct (setupDNS_steps w fuel NotifyContext st0) as [st1 [HT [Hn [Hg [Hs1 [_ E]]]]]].
  rewrite HSC in E, HT.
  assert (HErr : exists err,
             changeResourceRecordSets w 0 (upsertInput (globals st0)) = SubmitErr err).
  { destruct (changeResourceRecordSets w 0 (upsertInput (globals st0))) as [err|cid] eqn:EQ;
      [exists err; reflexivity|exfalso].
    destruct (keeps_waitForSync w (globals st1) NotifyContext cid fuel
                (emit_st (EvLog "Request sent to Route 53..." []) st1) eq_refl)
      as [_ [dw [HTW _]]].
    assert (Hin : forall r : Result unit,
               (exists d, trace (final r) = trace st1 ++ d) ->
               honoursContext w (trace (final r)) = true -> False).
    { intros r [d Hd] Hh. unfold honoursContext in Hh. rewrite forallb_forall in Hh.
      specialize (Hh (upsertTime st0,
                      EvSubmit NotifyContext (upsertInput (globals st0)) (SubmitOk cid))).
      cbn [snd fst] in Hh. unfold ctxDoneAt in Hh. cbn [doneAt] in Hh. rewrite HS in Hh.
      apply Z.leb_le in Hle. rewrite Hle in Hh.
      assert (Hf : false = true); [|discriminate Hf].
      apply Hh. rewrite Hd, HT. apply in_app_iff. left. apply in_app_iff. right.
      apply in_app_iff. right. left. reflexivity. }
    rewrite E in HH.
    destruct (waitForSync w fuel NotifyContext cid
                (emit_st (EvLog "Request sent to Route 53..." []) st1))
      as [[] st2|why st2]; cbn [final] in HTW.
    - rewrite HS in HH.
      match type of HH with
      | honoursContext w (trace (final (tearDownDNS w fuel Background ?st))) = true =>
          destruct (keeps_tearDownDNS w (globals st) Background fuel st eq_refl)
            as [_ [d3 [HT3 _]]];
          apply (Hin (tearDownDNS w fuel Background st));
            [|exact HH]
      end.
      rewrite HT3. cbn [emit_st at_time trace]. rewrite HTW. cbn [emit_st trace].
      eexists. repeat first [rewrite <- app_assoc | progress cbn [app]]. reflexivity.
    - apply (Hin (Halt why st2)); [|exact HH].
      cbn [final]. rewrite HTW. cbn [emit_st trace].
      eexists. repeat first [rewrite <- app_assoc | progress cbn [app]]. reflexivity. }
  destruct HErr as [err HE]. exists err. split; [exact HE|].
  clear HH. rewrite HE in E, HT. rewrite E, HS.
  match goal with |- context [tearDownDNS w fuel Background ?st] => set (st2 := st) end.
  assert (Hn2 : now st2 = upsertTime st0).
  { subst st2. cbn [emit_st at_time now]. lia. }
  assert (Hg2 : globals st2 = globals st0).
  { subst st2. cbn [emit_st at_time globals]. exact Hg. }
  assert (Hs2 : submitCalls st2 = 1%nat).
  { subst st2. cbn [emit_st at_time submitCalls]. rewrite Hs1, HSC. reflexivity. }
  assert (Ht2 : trace st2 = trace st0 ++ setupPrologue NotifyContext st0 ++
               [(upsertTime st0,
                 EvSubmit NotifyContext (upsertInput (globals st0)) (SubmitErr err));
                (upsertTime st0, EvLog "Failed to create DNS: %v" [AStr err]);
                (upsertTime st0, EvReturn FsetupDNS);
                (upsertTime st0, EvAwait NotifyContext);
                (Z.max (upsertTime st0) s, EvDone NotifyContext)]).
  { subst st2. cbn [emit_st at_time trace now]. rewrite HT, Hn.
    repeat first [rewrite <- app_assoc | progress cbn [app]]. reflexivity. }
  destruct (tearDownDNS_trace w fuel Background st2) as [rest [HTD [HRest _]]].
  destruct (keeps_tearDownDNS w (globals st2) Background fuel st2 eq_refl)
    as [_ [d3 [HT3 HD3]]].
  rewrite Hn2, Hg2, Hs2 in HTD.
  split; [|split; [|split; [|split; [|split]]]].
  - rewrite HTD, Ht2. apply in_app_iff. left. apply in_app_iff. right.
    apply in_app_iff. right. left. reflexivity.
  - rewrite HTD, Ht2. apply in_app_iff. left. apply in_app_iff. right.
    apply in_app_iff. right. right. left. reflexivity.
  - rewrite HTD. apply in_app_iff. right. left. reflexivity.
  - rewrite HTD. apply in_app_iff. right. right. right. left. reflexivity.
  - rewrite HTD, Ht2, !submitted_app, (submitted_none _ (isLog_not_submit _ HL)),
      (submitted_none _ (setupPrologue_not_submit NotifyContext st0)),
      (submitted_none _ HRest).
    reflexivity.
  - intros t c i r Hin. rewrite HT3, Ht2 in Hin.
    apply in_app_iff in Hin as [Hin|Hin].
    + apply in_app_iff in Hin as [Hin|Hin].
      * rewrite Forall_forall in HL. specialize (HL _ Hin). contradiction.
      * apply in_app_iff in Hin as [Hin|Hin].
        -- unfold setupPrologue in Hin. destruct (setupDelay (globals st0) >? 0);
             simpl in Hin; intuition discriminate.
        -- simpl in Hin. intuition discriminate.
    + rewrite Forall_forall in HD3. specialize (HD3 _ Hin).
      unfold tearDownEv, waitEv, loopEv in HD3. simpl in HD3.
      intuition (try discriminate; congruence).
Qed.

Lemma signal_before_submission_witness :
  submitted (trace (final (run signalledDuringDelay 5))) =
    [upsertInput (set_ipAddress "10.0.0.5" flagDefaults);
     deleteInput (set_ipAddress "10.0.0.5" flagDefaults)] /\
  In (10 * Go.Second,
      EvSubmit Background (deleteInput (set_ipAddress "10.0.0.5" flagDefaults))
        (SubmitOk "mockChangeId"))
     (trace (final (run signalledDuringDelay 5))).
Proof.
  destruct (signal_before_submission signalledDuringDelay 5
              (final (configured signalledDuringDelay)) (3 * Go.Second)
              eq_refl eq_refl eq_refl) as [err [_ [_ [_ [_ [H1 [H2 _]]]]]]].
  - vm_compute. discriminate.
  - vm_compute. reflexivity.
  - split; [exact H2|exact H1].
Defined.
